(** * Rocket launch simulator: a shallow embedding and its properties

    The development follows the TypeScript sources of the
    rocket-simulator-project: [types.ts], [exceptions.ts], [stages.ts],
    [rocketSystem.ts] and [commands.ts].

    Conventions of the embedding.
    - A JavaScript [number] that counts (the stage counter, the seconds of
      [advanceTime]) is a [Z]; one that measures (fuel, altitude, speed,
      the rates of a stage) is an exact rational [Q].  The literals of the
      flight (1.0, 0.5, 10, 15, 1000, 800, 30, 160, 5, 100) are dyadic,
      and lemma [reachable_numbers] shows that every value the program can
      reach is a bounded multiple of one half, so the exact model and
      binary64 arithmetic agree on it.  (The 0.1 of the random test in
      [performPreLaunchChecks] is not dyadic; it only selects log lines.)
    - Methods that read or write [this], log, or throw are computations
      [M S A = S -> result A * S]: the state reached so far survives a
      [Throw], as assignments made before a JavaScript exception do.
    - The logger is the shared sink of [(level, message)] calls.
    - Observers are external sinks.  [notifyObservers] hands them the live
      state object; the embedding covers the observers that read it, log,
      and return or throw, as the display of the program does, and not one
      that would write to the object it is handed.
    - [Math.random()] returns the next value of a sequence the world
      carries.
    - The number of seconds is whole, as [parseInt] hands it to
      [FastForwardCommand]; the loop of [advanceTime] runs that many times,
      and not at all for a count that is zero or negative. *)

From Stdlib Require Import ZArith QArith Qround Qabs String List Lia Lqa.
From Stdlib Require DecimalString.
From stdpp Require Import base decidable option list gmap strings.

Local Open Scope Z_scope.

(* ===================================================================== *)
(** ** exceptions.ts *)
(* ===================================================================== *)

(** The three exception classes of the program, and what else a JavaScript
    [throw] may carry: another [Error], or a value that is no [Error]. *)
Inductive Exn : Type :=
| SimulatorException (message : string)
| InvalidCommandException (command : string)
| InvalidStateException (message : string)
| OtherError (message : string)
| ThrownValue.

(** [error instanceof SimulatorException]: the class and its subclasses. *)
Definition instanceof_SimulatorException (error : Exn) : bool :=
  match error with
  | SimulatorException _ | InvalidCommandException _ | InvalidStateException _ => true
  | OtherError _ | ThrownValue => false
  end.

(** [error instanceof Error]. *)
Definition instanceof_Error (error : Exn) : bool :=
  match error with
  | ThrownValue => false
  | _ => true
  end.

(** [error.message]; [InvalidCommandException] builds it in its constructor. *)
Definition message (error : Exn) : string :=
  match error with
  | SimulatorException m | InvalidStateException m | OtherError m => m
  | InvalidCommandException command => "Invalid command: " +:+ command
  | ThrownValue => EmptyString
  end.

(** [error.name]. *)
Definition name (error : Exn) : string :=
  match error with
  | SimulatorException _ => "SimulatorException"
  | InvalidCommandException _ => "InvalidCommandException"
  | InvalidStateException _ => "InvalidStateException"
  | OtherError _ => "Error"
  | ThrownValue => EmptyString
  end.

(* ===================================================================== *)
(** ** Computations with state and exceptions *)
(* ===================================================================== *)

Inductive result (A : Type) : Type :=
| Ok (a : A)
| Throw (e : Exn).
Arguments Ok {A} a.
Arguments Throw {A} e.

Definition M (S A : Type) : Type := S -> result A * S.

Definition ret {S A} (a : A) : M S A := fun s => (Ok a, s).

Definition bind {S A B} (m : M S A) (k : A -> M S B) : M S B :=
  fun s =>
    match m s with
    | (Ok a, s') => k a s'
    | (Throw e, s') => (Throw e, s')
    end.

Definition throw {S A} (e : Exn) : M S A := fun s => (Throw e, s).

(** [try { m } catch (error) { handler error }] *)
Definition try_catch {S A} (m : M S A) (handler : Exn -> M S A) : M S A :=
  fun s =>
    match m s with
    | (Ok a, s') => (Ok a, s')
    | (Throw e, s') => handler e s'
    end.

Definition gets {S A} (f : S -> A) : M S A := fun s => (Ok (f s), s).
Definition modify {S} (f : S -> S) : M S unit := fun s => (Ok tt, f s).

(** A pure function that may throw, called from a computation. *)
Definition lift_result {S A} (r : result A) : M S A := fun s => (r, s).

Declare Scope rocket_scope.
Delimit Scope rocket_scope with rocket.
Notation "'let*' x ':=' m 'in' k" := (bind m (fun x => k))
  (at level 10, x name, m at level 100, k at level 200) : rocket_scope.
Notation "m ;; k" := (bind m (fun _ => k))
  (at level 100, k at level 200, right associativity) : rocket_scope.
Local Open Scope rocket_scope.

(** [array.forEach(f)] *)
Fixpoint forEach {S A} (f : A -> M S unit) (l : list A) : M S unit :=
  match l with
  | [] => ret tt
  | x :: l' => f x ;; forEach f l'
  end.

(* ===================================================================== *)
(** ** types.ts *)
(* ===================================================================== *)

Inductive MissionStatus : Type :=
| PRE_LAUNCH
| CHECKS_IN_PROGRESS
| READY_TO_LAUNCH
| IN_FLIGHT
| ORBIT_ACHIEVED
| MISSION_FAILED.

#[global] Instance MissionStatus_eq_dec : EqDecision MissionStatus.
Proof. solve_decision. Defined.

(** The string value of each member of the enum. *)
Definition MissionStatus_value (s : MissionStatus) : string :=
  match s with
  | PRE_LAUNCH => "Pre-Launch"
  | CHECKS_IN_PROGRESS => "System Checks"
  | READY_TO_LAUNCH => "Ready for Launch"
  | IN_FLIGHT => "In Flight"
  | ORBIT_ACHIEVED => "Orbit Achieved"
  | MISSION_FAILED => "Mission Failed"
  end.

(** [IRocketState], implemented by the class [RocketState]. *)
Record RocketState : Type := mkRocketState {
  stage : Z;
  fuel : Q;
  altitude : Q;
  speed : Q;
  status : MissionStatus
}.

(** [ILogger]: the calls received, oldest first. *)
Inductive Level : Type := INFO | WARN | ERROR.
Definition Logger : Type := list (Level * string).

(** JavaScript comparisons on the rational model of [number]. *)
Definition Qlt_bool (x y : Q) : bool := negb (Qle_bool y x).
Definition Qge_bool (x y : Q) : bool := Qle_bool y x.

(** [String(n)] for a whole number, of fewer than 22 digits, which
    JavaScript prints in full. *)
Definition Number_toString (n : Z) : string :=
  DecimalString.NilZero.string_of_int (Z.to_int n).

(* ===================================================================== *)
(** ** stages.ts *)
(* ===================================================================== *)

(** The module exports [StageFactory] only, so the two private classes are
    all the implementations of [IStageStrategy] a rocket can hold. *)
Inductive IStageStrategy : Type :=
| Stage1Strategy
| Stage2Strategy.

Definition getFuelConsumptionRate (s : IStageStrategy) : Q :=
  match s with
  | Stage1Strategy => 1
  | Stage2Strategy => 1 # 2
  end.

Definition getAltitudeIncrement (s : IStageStrategy) : Q :=
  match s with
  | Stage1Strategy => 10
  | Stage2Strategy => 15
  end.

Definition getSpeedIncrement (s : IStageStrategy) : Q :=
  match s with
  | Stage1Strategy => 1000
  | Stage2Strategy => 800
  end.

Definition getStageName (s : IStageStrategy) : string :=
  match s with
  | Stage1Strategy => "1"
  | Stage2Strategy => "2"
  end.

Definition shouldSeparate (s : IStageStrategy) (fuel : Q) : bool :=
  match s with
  | Stage1Strategy => Qle_bool fuel 30
  | Stage2Strategy => false
  end.

Module StageFactory.

Definition createStage (stageNumber : Z) : result IStageStrategy :=
  match stageNumber with
  | 1 => Ok Stage1Strategy
  | 2 => Ok Stage2Strategy
  | _ => Throw (SimulatorException ("Unknown stage: " +:+ Number_toString stageNumber))
  end.

End StageFactory.

(* ===================================================================== *)
(** ** rocketSystem.ts *)
(* ===================================================================== *)

(** [new RocketState()] with the defaults of its constructor. *)
Definition new_RocketState : RocketState :=
  {| stage := 0; fuel := 100; altitude := 0; speed := 0; status := PRE_LAUNCH |}.

(** [clone()] and the spread [{ ...this.state }]: the same field values. *)
Definition clone (this : RocketState) : RocketState :=
  mkRocketState (stage this) (fuel this) (altitude this) (speed this) (status this).

(** Field assignments [state.f = v]. *)
Definition set_stage (v : Z) (s : RocketState) : RocketState :=
  mkRocketState v (fuel s) (altitude s) (speed s) (status s).
Definition set_fuel (v : Q) (s : RocketState) : RocketState :=
  mkRocketState (stage s) v (altitude s) (speed s) (status s).
Definition set_altitude (v : Q) (s : RocketState) : RocketState :=
  mkRocketState (stage s) (fuel s) v (speed s) (status s).
Definition set_speed (v : Q) (s : RocketState) : RocketState :=
  mkRocketState (stage s) (fuel s) (altitude s) v (status s).
Definition set_status (v : MissionStatus) (s : RocketState) : RocketState :=
  mkRocketState (stage s) (fuel s) (altitude s) (speed s) v.

(** [IRocketObserver]: [onStateUpdate] reads the state it is handed and
    acts on the logger; it returns normally or throws. *)
Record IRocketObserver : Type := mkObserver {
  onStateUpdate : RocketState -> M Logger unit
}.

(** The fields of a [RocketSystem] object; its [logger] field refers to the
    logger of the [World] it lives in. *)
Record RocketSystem : Type := mkRocketSystem {
  state : RocketState;
  currentStageStrategy : option IStageStrategy;
  observers : list IRocketObserver
}.

Definition ORBIT_ALTITUDE : Q := 160.
Definition MIN_FUEL_FOR_ORBIT : Q := 5.

(** What the methods act on: the rocket, the logger it shares with the
    command layer and the display, and the values [Math.random()] is going
    to return ([random n] at the [n]-th call, [drawn] calls made so far). *)
Record World : Type := mkWorld {
  rocket : RocketSystem;
  logger : Logger;
  random : nat -> Q;
  drawn : nat
}.

Definition with_rocket (f : RocketSystem -> RocketSystem) (w : World) : World :=
  mkWorld (f (rocket w)) (logger w) (random w) (drawn w).
Definition with_logger (f : Logger -> Logger) (w : World) : World :=
  mkWorld (rocket w) (f (logger w)) (random w) (drawn w).
Definition with_state (f : RocketState -> RocketState) (w : World) : World :=
  with_rocket (fun r => mkRocketSystem (f (state r)) (currentStageStrategy r) (observers r)) w.
Definition with_strategy (v : option IStageStrategy) (w : World) : World :=
  with_rocket (fun r => mkRocketSystem (state r) v (observers r)) w.
Definition with_observers (f : list IRocketObserver -> list IRocketObserver) (w : World) : World :=
  with_rocket (fun r => mkRocketSystem (state r) (currentStageStrategy r) (f (observers r))) w.

(** [this.logger.info(m)], [.warn(m)], [.error(m)]. *)
Definition log (l : Level) (m : string) : M World unit :=
  modify (with_logger (fun h => h ++ [(l, m)])).
Definition info : string -> M World unit := log INFO.
Definition warn : string -> M World unit := log WARN.
Definition error : string -> M World unit := log ERROR.

(** [Math.random()] *)
Definition Math_random : M World Q :=
  fun w => (Ok (random w (drawn w)), mkWorld (rocket w) (logger w) (random w) (S (drawn w))).

(** A call into an observer: it runs on the logger of the world. *)
Definition on_logger {A} (m : M Logger A) : M World A :=
  fun w => let (r, h) := m (logger w) in (r, with_logger (fun _ => h) w).

Module RocketSystem.

(** [new RocketSystem(logger)] in a world with that logger. *)
Definition new (h : Logger) (rnd : nat -> Q) (n : nat) : World :=
  mkWorld (mkRocketSystem new_RocketState None []) h rnd n.

Definition addObserver (observer : IRocketObserver) : M World unit :=
  modify (with_observers (fun l => l ++ [observer])).

Definition notifyObservers : M World unit :=
  let* this := gets rocket in
  forEach (fun observer => on_logger (onStateUpdate observer (state this))) (observers this).

Definition getState : M World RocketState :=
  let* this := gets rocket in
  ret (clone (state this)).

Definition handleError (e : Exn) (context : string) : M World unit :=
  if instanceof_SimulatorException e then
    error (context +:+ ": " +:+ message e)
  else if instanceof_Error e then
    error (context +:+ ": Unexpected error - " +:+ message e)
  else
    error (context +:+ ": Unknown error occurred").

Definition systemChecks : list string :=
  [ "Flight computer"; "Navigation system"; "Fuel tanks"; "Engine systems";
    "Communication array" ]%string.

Definition performPreLaunchChecks : M World unit :=
  try_catch
    (info "Initiating pre-launch system checks..." ;;
     modify (with_state (set_status CHECKS_IN_PROGRESS)) ;;
     forEach (fun system =>
       let* r := Math_random in
       (if Qlt_bool r (1 # 10) then
          warn (system +:+ ": Transient error detected. Retrying...") ;;
          info (system +:+ ": Retry successful.")
        else ret tt) ;;
       info (system +:+ ": OK")) systemChecks ;;
     modify (with_state (set_status READY_TO_LAUNCH)) ;;
     info "All systems are 'Go' for launch." ;;
     notifyObservers)
    (fun e => handleError e "Pre-launch checks failed" ;; throw e).

Definition launch : M World unit :=
  try_catch
    (let* this := gets rocket in
     if bool_decide (status (state this) <> READY_TO_LAUNCH) then
       throw (InvalidStateException "Cannot launch: Pre-launch checks not completed")
     else
       info "🚀 Launching rocket!" ;;
       modify (with_state (set_stage 1)) ;;
       modify (with_state (set_status IN_FLIGHT)) ;;
       let* s := lift_result (StageFactory.createStage 1) in
       modify (with_strategy (Some s)) ;;
       notifyObservers)
    (fun e => handleError e "Launch failed" ;; throw e).

Definition achieveOrbit : M World unit :=
  modify (with_state (set_status ORBIT_ACHIEVED)) ;;
  info "🎉 Orbit achieved! Mission Successful." ;;
  notifyObservers.

Definition missionFailed (reason : string) : M World unit :=
  modify (with_state (set_status MISSION_FAILED)) ;;
  error ("❌ Mission Failed due to " +:+ reason +:+ ".") ;;
  notifyObservers.

(** [this.currentStageStrategy!]: reading a method of [null] throws a
    [TypeError]. *)
Definition strategy_of (o : option IStageStrategy) (method : string) : M World IStageStrategy :=
  match o with
  | Some s => ret s
  | None => throw (OtherError ("Cannot read properties of null (reading '" +:+ method +:+ "')"))
  end.

Definition separateStage : M World unit :=
  let* this := gets rocket in
  let* s := strategy_of (currentStageStrategy this) "getStageName" in
  info ("Stage " +:+ getStageName s +:+ " complete. Separating stage.") ;;
  modify (with_state (fun st => set_stage (stage st + 1) st)) ;;
  let* this := gets rocket in
  let* s' := lift_result (StageFactory.createStage (stage (state this))) in
  modify (with_strategy (Some s')) ;;
  info ("Entering Stage " +:+ getStageName s' +:+ ".").

Definition updateFlightParameters : M World bool :=
  let* this := gets rocket in
  match currentStageStrategy this with
  | None =>
      error "No stage strategy available" ;;
      ret false
  | Some strategy =>
      (* Update fuel *)
      modify (with_state (fun st => set_fuel (fuel st - getFuelConsumptionRate strategy) st)) ;;
      (* Check for fuel exhaustion *)
      let* this := gets rocket in
      if Qle_bool (fuel (state this)) 0 then
        modify (with_state (set_fuel 0)) ;;
        missionFailed "Insufficient fuel" ;;
        ret false
      else
        (* Update altitude and speed *)
        modify (with_state (fun st => set_altitude (altitude st + getAltitudeIncrement strategy) st)) ;;
        modify (with_state (fun st => set_speed (speed st + getSpeedIncrement strategy) st)) ;;
        (* Check for orbit achievement *)
        let* this := gets rocket in
        if Qge_bool (altitude (state this)) ORBIT_ALTITUDE
           && Qge_bool (fuel (state this)) MIN_FUEL_FOR_ORBIT then
          achieveOrbit ;;
          ret false
        else
          (* Check for stage separation *)
          (if shouldSeparate strategy (fuel (state this)) then separateStage else ret tt) ;;
          notifyObservers ;;
          ret true
  end.

(** [for (let i = 0; i < seconds; i++) { if (!step()) break; }] with [n]
    iterations left to run. *)
Fixpoint advanceLoop (n : nat) : M World unit :=
  match n with
  | O => ret tt
  | S n' =>
      let* continue := updateFlightParameters in
      if negb continue then ret tt else advanceLoop n'
  end.

Definition advanceTime (seconds : Z) : M World unit :=
  try_catch
    (let* this := gets rocket in
     if bool_decide (status (state this) <> IN_FLIGHT) then
       throw (InvalidStateException "Rocket is not in flight")
     else
       advanceLoop (Z.to_nat seconds))
    (fun e => handleError e "Flight simulation error" ;; throw e).

End RocketSystem.

(* ===================================================================== *)
(** ** commands.ts *)
(* ===================================================================== *)

(** [ICommand].  The commands of this program hold a reference to the one
    rocket system and logger of the world they run in. *)
Record ICommand : Type := mkCommand {
  execute : M World unit;
  canExecute : M World bool;
  getDescription : string
}.

Definition StartChecksCommand : ICommand :=
  {| execute := RocketSystem.performPreLaunchChecks;
     canExecute :=
       (let* state := RocketSystem.getState in
        ret (bool_decide (status state = PRE_LAUNCH)));
     getDescription := "Start pre-launch system checks" |}.

Definition LaunchCommand : ICommand :=
  {| execute := RocketSystem.launch;
     canExecute :=
       (let* state := RocketSystem.getState in
        ret (bool_decide (status state = READY_TO_LAUNCH)));
     getDescription := "Launch the rocket" |}.

Definition FastForwardCommand (seconds : Z) : ICommand :=
  {| execute :=
       (info ("Fast forwarding " +:+ Number_toString seconds +:+ " seconds...") ;;
        RocketSystem.advanceTime seconds);
     canExecute :=
       (let* state := RocketSystem.getState in
        ret (bool_decide (status state = IN_FLIGHT) && (0 <? seconds)));
     getDescription := "Fast forward " +:+ Number_toString seconds +:+ " seconds" |}.

(** *** Arrays of commands as heap objects

    [commandHistory] is a JavaScript array: an object reached through a
    reference, written in place by [push], and copied by the spread
    [[...a]].  The store maps each reference to the contents of its array;
    references come from allocation only and are never freed. *)
Abbreviation loc := positive (only parsing).

Record Machine : Type := mkMachine {
  world : World;
  arrays : gmap positive (list ICommand)
}.

Definition in_world {A} (m : M World A) : M Machine A :=
  fun s => let (r, w) := m (world s) in (r, mkMachine w (arrays s)).

(** A new array object with the given contents. *)
Definition array_new (l : list ICommand) : M Machine loc :=
  fun s =>
    let a := fresh (dom (arrays s)) in
    (Ok a, mkMachine (world s) (<[a := l]> (arrays s))).

(** The contents behind a reference (a reference to nothing, which
    allocation never hands out, reads as a [TypeError]). *)
Definition array_read (a : loc) : M Machine (list ICommand) :=
  fun s =>
    match arrays s !! a with
    | Some l => (Ok l, s)
    | None => (Throw (OtherError "not an array"), s)
    end.

(** An in-place write of the whole contents; every mutating method of an
    array is one of these. *)
Definition array_write (a : loc) (l : list ICommand) : M Machine unit :=
  modify (fun s => mkMachine (world s) (<[a := l]> (arrays s))).

(** [a.push(x)] *)
Definition array_push (a : loc) (x : ICommand) : M Machine unit :=
  let* l := array_read a in
  array_write a (l ++ [x]).

(** [[...a]] *)
Definition array_spread (a : loc) : M Machine loc :=
  let* l := array_read a in
  array_new l.

Record CommandInvoker : Type := mkCommandInvoker {
  commandHistory : loc
}.

Module CommandInvoker.

(** [new CommandInvoker(logger)] *)
Definition new : M Machine CommandInvoker :=
  let* a := array_new [] in
  ret (mkCommandInvoker a).

Definition executeCommand (this : CommandInvoker) (command : ICommand) : M Machine unit :=
  try_catch
    (let* ok := in_world (canExecute command) in
     if negb ok then
       throw (InvalidStateException ("Cannot execute command: " +:+ getDescription command))
     else
       in_world (info ("Executing: " +:+ getDescription command)) ;;
       in_world (execute command) ;;
       array_push (commandHistory this) command)
    (fun e =>
       (if instanceof_SimulatorException e then
          in_world (error (message e))
        else
          in_world (error "Command execution failed")) ;;
       throw e).

Definition getHistory (this : CommandInvoker) : M Machine loc :=
  array_spread (commandHistory this).

End CommandInvoker.

(* ===================================================================== *)
(** ** index.ts: the display *)
(* ===================================================================== *)

(** [x.toFixed(1)] for [x] below 10^21 in size: the number of tenths
    nearest to [x], the larger one on a tie, after the sign is set
    aside. *)
Definition toFixed1 (x : Q) : string :=
  let n := Qfloor (Qabs x * 10 + (1 # 2)) in
  (if Qlt_bool x 0 then "-" else EmptyString)
    +:+ Number_toString (n / 10) +:+ "." +:+ Number_toString (n mod 10).

(** [ConsoleDisplay], the observer the simulator registers. *)
Definition ConsoleDisplay : IRocketObserver :=
  {| onStateUpdate state :=
       if bool_decide (status state = IN_FLIGHT) then
         let output :=
           "Stage: " +:+ Number_toString (stage state)
             +:+ ", Fuel: " +:+ toFixed1 (fuel state) +:+ "%, "
             +:+ "Altitude: " +:+ toFixed1 (altitude state) +:+ " km, "
             +:+ "Speed: " +:+ toFixed1 (speed state) +:+ " km/h" in
         modify (fun h => h ++ [(INFO, output)])
       else ret tt |}.

(* ===================================================================== *)
(** ** Traces of calls on a rocket system *)
(* ===================================================================== *)

(** The public operations a client of [RocketSystem] may call. *)
Inductive Op : Type :=
| PerformPreLaunchChecks
| Launch
| AdvanceTime (seconds : Z)
| AddObserver (observer : IRocketObserver).

Definition call (op : Op) : M World unit :=
  match op with
  | PerformPreLaunchChecks => RocketSystem.performPreLaunchChecks
  | Launch => RocketSystem.launch
  | AdvanceTime seconds => RocketSystem.advanceTime seconds
  | AddObserver observer => RocketSystem.addObserver observer
  end.

(** The world after a client made the calls in turn, going on after a call
    that threw. *)
Definition run_ops (ops : list Op) (w : World) : World :=
  fold_left (fun w op => snd (call op w)) ops w.

(** An observer that never throws, as [ConsoleDisplay]. *)
Definition quiet (o : IRocketObserver) : Prop :=
  forall s h, fst (onStateUpdate o s h) = Ok tt.

(** The rocket after one update step: [updateFlightParameters] with the
    logger and the observers set aside (lemma [update_rocket]). *)
Definition stepped (r : RocketSystem) : RocketSystem :=
  match currentStageStrategy r with
  | None => r
  | Some strategy =>
      let s1 := set_fuel (fuel (state r) - getFuelConsumptionRate strategy) (state r) in
      if Qle_bool (fuel s1) 0 then
        mkRocketSystem (set_status MISSION_FAILED (set_fuel 0 s1)) (Some strategy) (observers r)
      else
        let s2 := set_speed (speed s1 + getSpeedIncrement strategy)
                    (set_altitude (altitude s1 + getAltitudeIncrement strategy) s1) in
        if Qge_bool (altitude s2) ORBIT_ALTITUDE && Qge_bool (fuel s2) MIN_FUEL_FOR_ORBIT then
          mkRocketSystem (set_status ORBIT_ACHIEVED s2) (Some strategy) (observers r)
        else if shouldSeparate strategy (fuel s2) then
          let s3 := set_stage (stage s2 + 1) s2 in
          match StageFactory.createStage (stage s3) with
          | Ok strategy' => mkRocketSystem s3 (Some strategy') (observers r)
          | Throw _ => mkRocketSystem s3 (Some strategy) (observers r)
          end
        else mkRocketSystem s2 (Some strategy) (observers r)
  end.

(** Whether that step asks the loop of [advanceTime] to go on. *)
Definition goes_on (r : RocketSystem) : bool :=
  match currentStageStrategy r with
  | None => false
  | Some strategy =>
      let f := (fuel (state r) - getFuelConsumptionRate strategy)%Q in
      negb (Qle_bool f 0)
      && negb (Qge_bool (altitude (state r) + getAltitudeIncrement strategy) ORBIT_ALTITUDE
               && Qge_bool f MIN_FUEL_FOR_ORBIT)
  end.

(** The coupling of the stage counter and the strategy in force. *)
Definition staged (r : RocketSystem) : Prop :=
  (stage (state r) = 0 /\ currentStageStrategy r = None)
  \/ (stage (state r) = 1 /\ currentStageStrategy r = Some Stage1Strategy)
  \/ (stage (state r) = 2 /\ currentStageStrategy r = Some Stage2Strategy).

(** The numbers of a rocket are in the range the simulation keeps them in. *)
Definition in_range (s : RocketState) : Prop :=
  (0 <= fuel s /\ fuel s <= 100
   /\ 0 <= altitude s /\ altitude s + 30 * fuel s <= 3000
   /\ 0 <= speed s /\ speed s + 2000 * fuel s <= 200000)%Q.

(** A whole number of halves. *)
Definition half_integer (x : Q) : Prop := exists k : Z, (x * 2 == inject_Z k)%Q.

(* ===================================================================== *)
(** ** Lemmas on the building blocks *)
(* ===================================================================== *)

Lemma log_eq l m w : log l m w = (Ok tt, with_logger (fun h => h ++ [(l, m)]) w).
Proof. reflexivity. Qed.

Lemma notify_from obs s w :
  exists r h,
    forEach (fun o => on_logger (onStateUpdate o s)) obs w
    = (r, mkWorld (rocket w) h (random w) (drawn w))
    /\ (Forall quiet obs -> r = Ok tt).
Proof.
  revert w; induction obs as [|o obs IH]; intros w.
  - exists (Ok tt), (logger w). by destruct w.
  - cbn [forEach]. unfold bind at 1, on_logger at 1.
    destruct (onStateUpdate o s (logger w)) as [r h] eqn:E.
    destruct r as [[]|e].
    + destruct (IH (with_logger (fun _ => h) w)) as (r' & h' & E' & Q).
      exists r', h'. split; [exact E'|].
      intros HQ. apply Q. by inversion HQ.
    + exists (Throw e), h. split; [reflexivity|].
      intros HQ. inversion HQ as [|? ? Ho _]; subst.
      specialize (Ho s (logger w)). rewrite E in Ho. discriminate.
Qed.

Lemma notifyObservers_spec w :
  exists r h,
    RocketSystem.notifyObservers w = (r, mkWorld (rocket w) h (random w) (drawn w))
    /\ (Forall quiet (observers (rocket w)) -> r = Ok tt).
Proof.
  unfold RocketSystem.notifyObservers, bind, gets.
  apply notify_from.
Qed.

Lemma handleError_spec e context w :
  exists h, RocketSystem.handleError e context w
            = (Ok tt, mkWorld (rocket w) h (random w) (drawn w)).
Proof.
  unfold RocketSystem.handleError, error.
  destruct (instanceof_SimulatorException e), (instanceof_Error e);
    rewrite log_eq; eexists; reflexivity.
Qed.

(** Runs the next call of [notifyObservers] in the goal. *)
Ltac notify :=
  match goal with
  | |- context [RocketSystem.notifyObservers ?W] =>
      let r := fresh "r" in
      let h := fresh "h" in
      let E := fresh "E" in
      let Q := fresh "Q" in
      destruct (notifyObservers_spec W) as (r & h & E & Q);
      rewrite E; cbn [rocket random drawn logger with_logger with_rocket] in *
  end.

(** Runs the next call of [handleError] in the goal. *)
Ltac handle :=
  match goal with
  | |- context [RocketSystem.handleError ?e ?c ?W] =>
      let h := fresh "h" in
      let E := fresh "E" in
      destruct (handleError_spec e c W) as (h & E);
      rewrite E; cbn [rocket random drawn logger with_logger with_rocket] in *
  end.

(** Unfolds the monad and the record updates, up to the next test or call. *)
Ltac run :=
  cbv [bind ret gets modify throw try_catch lift_result log
       with_state with_rocket with_logger with_strategy with_observers];
  cbn [rocket logger random drawn state currentStageStrategy observers
       stage fuel altitude speed status
       set_stage set_fuel set_altitude set_speed set_status negb andb fst snd].

Lemma update_spec w :
  exists r h,
    RocketSystem.updateFlightParameters w
    = (r, mkWorld (stepped (rocket w)) h (random w) (drawn w))
    /\ (forall b, r = Ok b -> b = goes_on (rocket w))
    /\ (Forall quiet (observers (rocket w)) -> staged (rocket w) -> r = Ok (goes_on (rocket w))).
Proof.
  unfold RocketSystem.updateFlightParameters, RocketSystem.missionFailed,
    RocketSystem.achieveOrbit, RocketSystem.separateStage, RocketSystem.strategy_of,
    error, info, stepped, goes_on, staged.
  destruct w as [[s o obs] h0 rnd d]; run.
  destruct o as [strategy|]; run.
  - destruct (Qle_bool (fuel s - getFuelConsumptionRate strategy) 0) eqn:Hf; run.
    { notify. exists (match r with Ok _ => Ok false | Throw e => Throw e end), h.
      destruct r as [[]|e]; repeat split; try done.
      - by intros b [= <-].
      - intros HQ _. by specialize (Q HQ). }
    destruct (Qge_bool (altitude s + getAltitudeIncrement strategy) ORBIT_ALTITUDE
              && Qge_bool (fuel s - getFuelConsumptionRate strategy) MIN_FUEL_FOR_ORBIT)
      eqn:Ho; run.
    { notify. exists (match r with Ok _ => Ok false | Throw e => Throw e end), h.
      destruct r as [[]|e]; repeat split; try done.
      - by intros b [= <-].
      - intros HQ _. by specialize (Q HQ). }
    destruct (shouldSeparate strategy (fuel s - getFuelConsumptionRate strategy)) eqn:Hsep; run.
    2:{ notify. exists (match r with Ok _ => Ok true | Throw e => Throw e end), h.
        destruct r as [[]|e]; repeat split; try done.
        - by intros b [= <-].
        - intros HQ _. by specialize (Q HQ). }
    destruct (StageFactory.createStage (stage s + 1)) as [strategy'|e] eqn:Hc; run.
    { notify. exists (match r with Ok _ => Ok true | Throw e => Throw e end), h.
      destruct r as [[]|e]; repeat split; try done.
      - by intros b [= <-].
      - intros HQ _. by specialize (Q HQ). }
    eexists (Throw e), _. repeat split; try done.
    intros _ [(_ & [=])|[(Hst & [= ->])|(_ & [= ->])]]; cbn in Hsep.
    + rewrite Hst in Hc. discriminate.
    + discriminate.
  - eexists (Ok false), _. repeat split; try done. by intros b [= <-].
Qed.

(** The rocket after the loop of [advanceTime] ran [n] steps, or fewer when
    a step asked to stop. *)
Fixpoint flown (n : nat) (r : RocketSystem) : RocketSystem :=
  match n with
  | O => r
  | S n' => if goes_on r then flown n' (stepped r) else stepped r
  end.

(** The rocket after a successful [launch]. *)
Definition launched (r : RocketSystem) : RocketSystem :=
  mkRocketSystem (set_status IN_FLIGHT (set_stage 1 (state r)))
    (Some Stage1Strategy) (observers r).

(** The rocket after [performPreLaunchChecks]. *)
Definition checked (r : RocketSystem) : RocketSystem :=
  mkRocketSystem (set_status READY_TO_LAUNCH (state r))
    (currentStageStrategy r) (observers r).

Lemma stepped_observers r : observers (stepped r) = observers r.
Proof.
  unfold stepped. destruct (currentStageStrategy r); [|done].
  repeat (case_match; cbn [observers]); done.
Qed.

Lemma stepped_staged r : staged r -> staged (stepped r).
Proof.
  destruct r as [s o obs]. unfold staged, stepped.
  cbn [state currentStageStrategy observers].
  intros [(H0 & ->)|[(H1 & ->)|(H2 & ->)]]; cbn [shouldSeparate].
  - by left.
  - repeat (case_match; cbn [state currentStageStrategy set_status set_stage stage
                              set_fuel set_altitude set_speed] in * );
      rewrite ?H1 in *;
      try match goal with
          | H : StageFactory.createStage _ = _ |- _ => vm_compute in H
          end;
      simplify_eq; auto.
  - repeat (case_match; cbn [state currentStageStrategy set_status set_stage stage
                              set_fuel set_altitude set_speed] in * ); auto.
Qed.

Lemma loop_spec n w :
  exists r h k,
    RocketSystem.advanceLoop n w
    = (r, mkWorld (flown k (rocket w)) h (random w) (drawn w))
    /\ (k <= n)%nat
    /\ (Forall quiet (observers (rocket w)) -> staged (rocket w) -> r = Ok tt /\ k = n).
Proof.
  revert w; induction n as [|n IH]; intros w.
  - exists (Ok tt), (logger w), O. destruct w. repeat split; done.
  - cbn [RocketSystem.advanceLoop]. unfold bind at 1.
    destruct (update_spec w) as (r & h & E & Hb & Hq). rewrite E.
    destruct r as [b|e].
    + specialize (Hb b eq_refl). subst b.
      destruct (goes_on (rocket w)) eqn:G; cbn [negb].
      * destruct (IH (mkWorld (stepped (rocket w)) h (random w) (drawn w)))
          as (r' & h' & k & E' & Hk & Hq').
        cbn [rocket random drawn] in *.
        exists r', h', (S k). cbn [flown]. rewrite G.
        split; [done|]. split; [lia|].
        intros HQ Hs. destruct Hq' as [-> ->];
          rewrite ?stepped_observers; auto using stepped_staged.
      * exists (Ok tt), h, (S n). cbn [flown]. rewrite G. done.
    + exists (Throw e), h, 1%nat. cbn [flown].
      split; [by destruct (goes_on (rocket w))|]. split; [lia|].
      intros HQ Hs. by specialize (Hq HQ Hs).
Qed.

Lemma advanceTime_grounded seconds w :
  status (state (rocket w)) <> IN_FLIGHT ->
  RocketSystem.advanceTime seconds w
  = (Throw (InvalidStateException "Rocket is not in flight"),
     with_logger
       (fun h => h ++ [(ERROR, "Flight simulation error: Rocket is not in flight")]) w).
Proof.
  intros H. unfold RocketSystem.advanceTime, RocketSystem.handleError, error. run.
  rewrite bool_decide_true by done. reflexivity.
Qed.

Lemma advanceTime_flying seconds w :
  status (state (rocket w)) = IN_FLIGHT ->
  exists r h k,
    RocketSystem.advanceTime seconds w
    = (r, mkWorld (flown k (rocket w)) h (random w) (drawn w))
    /\ (k <= Z.to_nat seconds)%nat
    /\ (Forall quiet (observers (rocket w)) -> staged (rocket w) ->
        r = Ok tt /\ k = Z.to_nat seconds).
Proof.
  intros H. unfold RocketSystem.advanceTime.
  unfold try_catch, bind at 1, gets at 1.
  rewrite bool_decide_false by (rewrite H; auto).
  destruct (loop_spec (Z.to_nat seconds) w) as (r & h & k & E & Hk & Hq). rewrite E.
  destruct r as [[]|e].
  - by exists (Ok tt), h, k.
  - unfold bind at 1. handle. unfold throw.
    exists (Throw e), h0, k. repeat split; try done.
    all: by destruct (Hq H0 H1).
Qed.

Lemma launch_grounded w :
  status (state (rocket w)) <> READY_TO_LAUNCH ->
  RocketSystem.launch w
  = (Throw (InvalidStateException "Cannot launch: Pre-launch checks not completed"),
     with_logger
       (fun h => h ++ [(ERROR, "Launch failed: Cannot launch: Pre-launch checks not completed")])
       w).
Proof.
  intros H. unfold RocketSystem.launch, RocketSystem.handleError, error. run.
  rewrite bool_decide_true by done. reflexivity.
Qed.

Lemma launch_ready w :
  status (state (rocket w)) = READY_TO_LAUNCH ->
  exists r h,
    RocketSystem.launch w = (r, mkWorld (launched (rocket w)) h (random w) (drawn w))
    /\ (Forall quiet (observers (rocket w)) -> r = Ok tt).
Proof.
  intros H. unfold RocketSystem.launch, info, launched.
  unfold try_catch, bind at 1, gets at 1.
  rewrite bool_decide_false by (rewrite H; auto).
  unfold StageFactory.createStage. run.
  notify. destruct r as [[]|e].
  - by exists (Ok tt), h.
  - handle. exists (Throw e), h0. split; [done|]. intros HQ. by specialize (Q HQ).
Qed.

(** A [forEach] whose body only logs and draws one random number. *)
Lemma forEach_draws {A} (f : A -> M World unit) (l : list A) :
  (forall x w, exists h, f x w = (Ok tt, mkWorld (rocket w) h (random w) (S (drawn w)))) ->
  forall w, exists h,
    forEach f l w = (Ok tt, mkWorld (rocket w) h (random w) (length l + drawn w)%nat).
Proof.
  intros Hf. induction l as [|x l IH]; intros w.
  - exists (logger w). by destruct w.
  - cbn [forEach]. unfold bind at 1.
    destruct (Hf x w) as (h & E). rewrite E.
    destruct (IH (mkWorld (rocket w) h (random w) (S (drawn w)))) as (h' & E').
    cbn [rocket random drawn] in E'. rewrite E'. exists h'. cbn [length].
    replace (length l + S (drawn w))%nat with (S (length l + drawn w)) by lia. done.
Qed.

Lemma checks_spec w :
  exists r h,
    RocketSystem.performPreLaunchChecks w
    = (r, mkWorld (checked (rocket w)) h (random w) (5 + drawn w)%nat)
    /\ (Forall quiet (observers (rocket w)) -> r = Ok tt).
Proof.
  unfold RocketSystem.performPreLaunchChecks, checked.
  unfold try_catch, bind at 1, info at 1. rewrite log_eq.
  unfold bind at 1, modify at 1.
  unfold bind at 1.
  match goal with
  | |- context [forEach ?f RocketSystem.systemChecks ?W] =>
      destruct (forEach_draws f RocketSystem.systemChecks) with (w := W) as (h & E)
  end.
  { intros x w'. unfold Math_random, warn, info. run.
    destruct (Qlt_bool (random w' (drawn w')) (1 # 10)); eexists; reflexivity. }
  rewrite E. clear E. run. unfold info. run.
  notify. destruct r as [[]|e].
  - by exists (Ok tt), h0.
  - handle. exists (Throw e), h1. split; [done|]. intros HQ. by specialize (Q HQ).
Qed.

Lemma addObserver_eq o w :
  RocketSystem.addObserver o w = (Ok tt, with_observers (fun l => l ++ [o]) w).
Proof. reflexivity. Qed.

(* ===================================================================== *)
(** ** Arithmetic of one step *)
(* ===================================================================== *)

Lemma Qle_bool_false x y : Qle_bool x y = false -> (y < x)%Q.
Proof.
  intros H. apply Qnot_le_lt. intros Hle.
  apply Qle_bool_iff in Hle. congruence.
Qed.

(** Turns the tests of the program into inequalities on [Q]. *)
Ltac tests :=
  unfold Qge_bool, Qlt_bool, ORBIT_ALTITUDE, MIN_FUEL_FOR_ORBIT in *;
  repeat match goal with
    | H : _ && _ = true |- _ => apply andb_true_iff in H; destruct H
    | H : _ && _ = false |- _ => apply andb_false_iff in H; destruct H
    | H : negb _ = true |- _ => apply negb_true_iff in H
    | H : negb _ = false |- _ => apply negb_false_iff in H
    | H : Qle_bool _ _ = true |- _ => apply Qle_bool_iff in H
    | H : Qle_bool _ _ = false |- _ => apply Qle_bool_false in H
    end.

(** Splits [stepped r] and [goes_on r] along the tests of the step. *)
Ltac step_cases r :=
  let s := fresh "s" in
  let o := fresh "o" in
  let obs := fresh "obs" in
  destruct r as [s o obs]; unfold stepped, goes_on in *;
  cbn [state currentStageStrategy observers] in *;
  destruct o as [[]|];
  cbn [getFuelConsumptionRate getAltitudeIncrement getSpeedIncrement shouldSeparate
       set_fuel set_altitude set_speed set_status set_stage
       fuel altitude speed stage status] in *;
  repeat (case_match;
          cbn [state currentStageStrategy observers
               set_fuel set_altitude set_speed set_status set_stage
               fuel altitude speed stage status negb andb] in * );
  cbn [state currentStageStrategy observers] in *.

Lemma stepped_fuel r :
  (0 <= fuel (state r))%Q ->
  (0 <= fuel (state (stepped r)) /\ fuel (state (stepped r)) <= fuel (state r))%Q.
Proof. intros H. step_cases r; tests; lra. Qed.

Lemma stepped_altitude r : (altitude (state r) <= altitude (state (stepped r)))%Q.
Proof. step_cases r; tests; lra. Qed.

Lemma stepped_speed r : (speed (state r) <= speed (state (stepped r)))%Q.
Proof. step_cases r; tests; lra. Qed.

Lemma stepped_in_range r : in_range (state r) -> in_range (state (stepped r)).
Proof. unfold in_range. intros H. step_cases r; tests; lra. Qed.

Lemma flown_fuel n r :
  (0 <= fuel (state r))%Q ->
  (0 <= fuel (state (flown n r)) /\ fuel (state (flown n r)) <= fuel (state r))%Q.
Proof.
  revert r; induction n as [|n IH]; intros r H; cbn [flown]; [lra|].
  destruct (stepped_fuel r H) as [H0 H1].
  destruct (goes_on r); [|done].
  destruct (IH (stepped r) H0). lra.
Qed.

Lemma flown_altitude n r : (altitude (state r) <= altitude (state (flown n r)))%Q.
Proof.
  revert r; induction n as [|n IH]; intros r; cbn [flown]; [lra|].
  pose proof (stepped_altitude r).
  destruct (goes_on r); [|done].
  specialize (IH (stepped r)). lra.
Qed.

Lemma flown_speed n r : (speed (state r) <= speed (state (flown n r)))%Q.
Proof.
  revert r; induction n as [|n IH]; intros r; cbn [flown]; [lra|].
  pose proof (stepped_speed r).
  destruct (goes_on r); [|done].
  specialize (IH (stepped r)). lra.
Qed.

(* ===================================================================== *)
(** ** Sample worlds *)
(* ===================================================================== *)

(** A fresh rocket system with the display registered and its checks
    done, as after the command [start_checks] of the simulator. *)
Definition world_ready : World :=
  run_ops [AddObserver ConsoleDisplay; PerformPreLaunchChecks]
    (RocketSystem.new [] (fun _ => 1 # 2)%Q 0).

(** Launched and flown to orbit, which the rocket reaches at second 16. *)
Definition world_in_orbit : World :=
  run_ops [Launch; AdvanceTime 60] world_ready.

(** One more second of flight for a rocket that is not in flight: checks
    and launch again, then one second. *)
Definition relaunch : list Op := [PerformPreLaunchChecks; Launch; AdvanceTime 1].

(** In its first stage with fuel 5 at 950 km: launched again from orbit 80
    times, each of the first 79 flights ending in orbit after one second. *)
Definition world_before_separation : World :=
  run_ops (concat (replicate 79 relaunch) ++ [PerformPreLaunchChecks; Launch])
    world_in_orbit.

(** Eight seconds later: in its second stage with fuel one half. *)
Definition world_running_dry : World :=
  run_ops [AdvanceTime 8] world_before_separation.

Example world_ready_state :
  state (rocket world_ready) = mkRocketState 0 100 0 0 READY_TO_LAUNCH.
Proof. vm_compute. reflexivity. Qed.

Example world_in_orbit_state :
  state (rocket world_in_orbit) = mkRocketState 1 84 160 16000 ORBIT_ACHIEVED.
Proof. vm_compute. reflexivity. Qed.

Example world_before_separation_state :
  state (rocket world_before_separation) = mkRocketState 1 5 950 95000 IN_FLIGHT
  /\ currentStageStrategy (rocket world_before_separation) = Some Stage1Strategy.
Proof. vm_compute. split; reflexivity. Qed.

Example world_running_dry_state :
  stage (state (rocket world_running_dry)) = 2
  /\ (fuel (state (rocket world_running_dry)) == 1 # 2)%Q
  /\ (altitude (state (rocket world_running_dry)) == 1065)%Q
  /\ (speed (state (rocket world_running_dry)) == 101600)%Q
  /\ status (state (rocket world_running_dry)) = IN_FLIGHT
  /\ currentStageStrategy (rocket world_running_dry) = Some Stage2Strategy.
Proof. vm_compute. repeat split; reflexivity. Qed.

Lemma ConsoleDisplay_quiet : quiet ConsoleDisplay.
Proof. intros s h. unfold ConsoleDisplay; cbn. by case_bool_decide. Qed.

Lemma sample_observers :
  Forall quiet (observers (rocket world_ready))
  /\ Forall quiet (observers (rocket world_in_orbit))
  /\ Forall quiet (observers (rocket world_before_separation))
  /\ Forall quiet (observers (rocket world_running_dry)).
Proof.
  assert (Forall quiet [ConsoleDisplay]) as H
    by (repeat constructor; apply ConsoleDisplay_quiet).
  assert (observers (rocket world_ready) = [ConsoleDisplay]) as -> by (vm_compute; reflexivity).
  assert (observers (rocket world_in_orbit) = [ConsoleDisplay]) as ->
    by (vm_compute; reflexivity).
  assert (observers (rocket world_before_separation) = [ConsoleDisplay]) as ->
    by (vm_compute; reflexivity).
  assert (observers (rocket world_running_dry) = [ConsoleDisplay]) as ->
    by (vm_compute; reflexivity).
  done.
Qed.

(* ===================================================================== *)
(** ** The stage factory *)
(* ===================================================================== *)

(** C8.  [StageFactory.createStage n] returns the Stage 1 strategy (burn 1
    per second, +10 km and +1000 km/h per second, separation at fuel <= 30)
    for [n = 1], the Stage 2 strategy (burn 1/2, +15 km, +800 km/h, never
    separates) for [n = 2], and throws a [SimulatorException] for every
    other whole number, among them 0, the negative ones and those from 3
    on.  It is a function of its argument alone: called from a computation
    it leaves the state as it found it. *)
Theorem createStage_contract :
  (StageFactory.createStage 1 = Ok Stage1Strategy
   /\ (getFuelConsumptionRate Stage1Strategy == 1)%Q
   /\ (getAltitudeIncrement Stage1Strategy == 10)%Q
   /\ (getSpeedIncrement Stage1Strategy == 1000)%Q
   /\ (forall f, shouldSeparate Stage1Strategy f = true <-> (f <= 30)%Q))
  /\ (StageFactory.createStage 2 = Ok Stage2Strategy
      /\ (getFuelConsumptionRate Stage2Strategy == 1 # 2)%Q
      /\ (getAltitudeIncrement Stage2Strategy == 15)%Q
      /\ (getSpeedIncrement Stage2Strategy == 800)%Q
      /\ (forall f, shouldSeparate Stage2Strategy f = false))
  /\ Stage1Strategy <> Stage2Strategy
  /\ (forall n, n <> 1 -> n <> 2 ->
      StageFactory.createStage n
      = Throw (SimulatorException ("Unknown stage: " +:+ Number_toString n)))
  /\ (forall n, n <= 0 \/ 3 <= n -> exists e, StageFactory.createStage n = Throw e)
  /\ StageFactory.createStage 3 = Throw (SimulatorException "Unknown stage: 3")
  /\ StageFactory.createStage 0 = Throw (SimulatorException "Unknown stage: 0")
  /\ StageFactory.createStage (-1) = Throw (SimulatorException "Unknown stage: -1")
  /\ (forall (S : Type) (n : Z) (s : S),
      lift_result (StageFactory.createStage n) s = (StageFactory.createStage n, s)).
Proof.
  assert (forall n, n <> 1 -> n <> 2 ->
            StageFactory.createStage n
            = Throw (SimulatorException ("Unknown stage: " +:+ Number_toString n))) as Hother.
  { intros n H1 H2. unfold StageFactory.createStage.
    destruct n as [|p|p]; try reflexivity.
    destruct p as [[p|p|]|[p|p|]|]; try reflexivity; congruence. }
  repeat split; try reflexivity; try discriminate; auto.
  - apply Qle_bool_iff.
  - apply Qle_bool_iff.
  - intros n Hn. eexists. apply Hother; lia.
Qed.

(* ===================================================================== *)
(** ** advanceTime and launch outside their state *)
(* ===================================================================== *)

(** C3.  In a state whose status is not IN_FLIGHT, [advanceTime seconds]
    throws the invalid-state error, whatever [seconds] is, and leaves the
    stage, the fuel, the altitude, the speed and the status (and the rest
    of the rocket) as they were; it only logs the error. *)
Theorem advanceTime_requires_flight (w : World) (seconds : Z) :
  status (state (rocket w)) <> IN_FLIGHT ->
  let w' := snd (RocketSystem.advanceTime seconds w) in
  fst (RocketSystem.advanceTime seconds w)
  = Throw (InvalidStateException "Rocket is not in flight")
  /\ stage (state (rocket w')) = stage (state (rocket w))
  /\ fuel (state (rocket w')) = fuel (state (rocket w))
  /\ altitude (state (rocket w')) = altitude (state (rocket w))
  /\ speed (state (rocket w')) = speed (state (rocket w))
  /\ status (state (rocket w')) = status (state (rocket w))
  /\ rocket w' = rocket w
  /\ logger w' = logger w ++ [(ERROR, "Flight simulation error: Rocket is not in flight")].
Proof.
  intros H w'. subst w'. rewrite (advanceTime_grounded seconds w H). by repeat split.
Qed.

Lemma advanceTime_requires_flight_witness :
  status (state (rocket world_in_orbit)) <> IN_FLIGHT
  /\ fst (RocketSystem.advanceTime 60 world_in_orbit)
     = Throw (InvalidStateException "Rocket is not in flight")
  /\ state (rocket (snd (RocketSystem.advanceTime 60 world_in_orbit)))
     = state (rocket world_in_orbit).
Proof.
  assert (status (state (rocket world_in_orbit)) <> IN_FLIGHT) as H
    by (rewrite world_in_orbit_state; discriminate).
  split; [exact H|].
  destruct (advanceTime_requires_flight world_in_orbit 60 H) as (E & _ & _ & _ & _ & _ & R & _).
  split; [exact E|]. exact (f_equal state R).
Defined.

(** C6.  [launch] throws the invalid-state error and writes no field of the
    rocket unless the status is READY_TO_LAUNCH; from READY_TO_LAUNCH it
    sets the stage to 1 and the status to IN_FLIGHT and installs the
    Stage 1 strategy, the one [StageFactory.createStage 1] returns, and
    returns normally when no observer throws. *)
Theorem launch_contract (w : World) :
  let w' := snd (RocketSystem.launch w) in
  (status (state (rocket w)) <> READY_TO_LAUNCH ->
   fst (RocketSystem.launch w)
   = Throw (InvalidStateException "Cannot launch: Pre-launch checks not completed")
   /\ rocket w' = rocket w)
  /\ (status (state (rocket w)) = READY_TO_LAUNCH ->
      stage (state (rocket w')) = 1
      /\ status (state (rocket w')) = IN_FLIGHT
      /\ currentStageStrategy (rocket w') = Some Stage1Strategy
      /\ Ok Stage1Strategy = StageFactory.createStage 1
      /\ fuel (state (rocket w')) = fuel (state (rocket w))
      /\ altitude (state (rocket w')) = altitude (state (rocket w))
      /\ speed (state (rocket w')) = speed (state (rocket w))
      /\ observers (rocket w') = observers (rocket w)
      /\ (Forall quiet (observers (rocket w)) -> fst (RocketSystem.launch w) = Ok tt)).
Proof.
  intros w'. subst w'. split; intros H.
  - rewrite (launch_grounded w H). by split.
  - destruct (launch_ready w H) as (r & h & E & Q). rewrite E. by repeat split.
Qed.

Lemma launch_contract_witness :
  (status (state (rocket world_in_orbit)) <> READY_TO_LAUNCH
   /\ fst (RocketSystem.launch world_in_orbit)
      = Throw (InvalidStateException "Cannot launch: Pre-launch checks not completed")
   /\ rocket (snd (RocketSystem.launch world_in_orbit)) = rocket world_in_orbit)
  /\ (status (state (rocket world_ready)) = READY_TO_LAUNCH
      /\ fst (RocketSystem.launch world_ready) = Ok tt
      /\ stage (state (rocket (snd (RocketSystem.launch world_ready)))) = 1
      /\ status (state (rocket (snd (RocketSystem.launch world_ready)))) = IN_FLIGHT
      /\ currentStageStrategy (rocket (snd (RocketSystem.launch world_ready)))
         = Some Stage1Strategy).
Proof.
  assert (status (state (rocket world_in_orbit)) <> READY_TO_LAUNCH) as H1
    by (rewrite world_in_orbit_state; discriminate).
  assert (status (state (rocket world_ready)) = READY_TO_LAUNCH) as H2
    by (rewrite world_ready_state; reflexivity).
  split.
  - split; [exact H1|]. apply (launch_contract world_in_orbit). exact H1.
  - split; [exact H2|].
    destruct (launch_contract world_ready) as [_ H].
    destruct (H H2) as (Hst & Hfl & Hs & _ & _ & _ & _ & _ & HQ).
    split; [exact (HQ (proj1 sample_observers))|]. exact (conj Hst (conj Hfl Hs)).
Defined.

(* ===================================================================== *)
(** ** What holds in every world a client can reach *)
(* ===================================================================== *)

Definition whole (x : Q) : Prop := exists k : Z, (x == inject_Z k)%Q.

(** The invariant of the rocket: counter and strategy agree, the numbers
    are in range, and they are whole numbers, or halves for the fuel. *)
Definition sound (r : RocketSystem) : Prop :=
  staged r /\ in_range (state r)
  /\ half_integer (fuel (state r)) /\ whole (altitude (state r)) /\ whole (speed (state r)).

Lemma whole_plus x (k : Z) : whole x -> whole (x + inject_Z k).
Proof.
  intros [a Ha]. exists (a + k). rewrite inject_Z_plus, Ha. reflexivity.
Qed.

Lemma half_integer_minus x (k : Z) : half_integer x -> half_integer (x - inject_Z k / 2).
Proof.
  intros [a Ha]. exists (a - k). unfold Z.sub.
  rewrite inject_Z_plus, inject_Z_opp, <- Ha. field.
Qed.

Lemma half_integer_burn x strategy :
  half_integer x -> half_integer (x - getFuelConsumptionRate strategy).
Proof.
  intros H. destruct strategy; cbn [getFuelConsumptionRate].
  - apply (half_integer_minus _ 2) in H. destruct H as [a Ha]. exists a.
    rewrite <- Ha. change (inject_Z 2) with 2%Q. field.
  - apply (half_integer_minus _ 1) in H. destruct H as [a Ha]. exists a.
    rewrite <- Ha. change (inject_Z 1) with 1%Q. field.
Qed.

Lemma half_integer_0 : half_integer 0.
Proof. by exists 0. Qed.

Lemma stepped_sound r : sound r -> sound (stepped r).
Proof.
  intros (Hs & Hr & Hf & Ha & Hv).
  split; [by apply stepped_staged|]. split; [by apply stepped_in_range|].
  clear Hs Hr. step_cases r; repeat split;
    try exact half_integer_0; try assumption;
    try exact (half_integer_burn _ Stage1Strategy Hf);
    try exact (half_integer_burn _ Stage2Strategy Hf);
    try (apply (whole_plus _ 10) in Ha; exact Ha);
    try (apply (whole_plus _ 15) in Ha; exact Ha);
    try (apply (whole_plus _ 1000) in Hv; exact Hv);
    try (apply (whole_plus _ 800) in Hv; exact Hv).
Qed.

Lemma flown_sound n r : sound r -> sound (flown n r).
Proof.
  revert r; induction n as [|n IH]; intros r H; cbn [flown]; [done|].
  destruct (goes_on r); [apply IH|]; by apply stepped_sound.
Qed.

Lemma new_sound h rnd n : sound (rocket (RocketSystem.new h rnd n)).
Proof.
  split; [by left|]. split; [unfold in_range; cbn; lra|].
  repeat split; [by exists 200|by exists 0|by exists 0].
Qed.

Lemma call_sound op w : sound (rocket w) -> sound (rocket (snd (call op w))).
Proof.
  intros H. destruct op as [| |seconds|o]; cbn [call].
  - destruct (checks_spec w) as (r & h & E & _). rewrite E. exact H.
  - destruct (decide (status (state (rocket w)) = READY_TO_LAUNCH)) as [Hr|Hr].
    + destruct (launch_ready w Hr) as (r & h & E & _). rewrite E.
      destruct H as (_ & Hrange & Hnum). split; [|split]; [|exact Hrange|exact Hnum].
      right; left. done.
    + rewrite (launch_grounded w Hr). exact H.
  - destruct (decide (status (state (rocket w)) = IN_FLIGHT)) as [Hr|Hr].
    + destruct (advanceTime_flying seconds w Hr) as (r & h & k & E & _). rewrite E.
      by apply flown_sound.
    + rewrite (advanceTime_grounded seconds w Hr). exact H.
  - rewrite addObserver_eq. exact H.
Qed.

Lemma run_ops_sound ops w : sound (rocket w) -> sound (rocket (run_ops ops w)).
Proof.
  revert w; induction ops as [|op ops IH]; intros w H; [done|].
  cbn [run_ops fold_left]. apply IH. by apply call_sound.
Qed.

(** Every number a client can reach is a whole number of halves between 0
    and 200000: the exact model and binary64 arithmetic agree on all of
    them. *)
Lemma reachable_numbers h rnd n ops :
  let s := state (rocket (run_ops ops (RocketSystem.new h rnd n))) in
  half_integer (fuel s) /\ whole (altitude s) /\ whole (speed s)
  /\ (0 <= fuel s <= 100 /\ 0 <= altitude s <= 3000 /\ 0 <= speed s <= 200000)%Q.
Proof.
  intros s. destruct (run_ops_sound ops _ (new_sound h rnd n)) as (_ & Hr & Hf & Ha & Hv).
  fold s in Hr, Hf, Ha, Hv. unfold in_range in Hr.
  repeat split; try assumption; lra.
Qed.

(* ===================================================================== *)
(** ** Steps and calls seen from outside *)
(* ===================================================================== *)

Lemma update_rocket w :
  rocket (snd (RocketSystem.updateFlightParameters w)) = stepped (rocket w).
Proof. destruct (update_spec w) as (r & h & E & _). by rewrite E. Qed.

Lemma update_result w b :
  fst (RocketSystem.updateFlightParameters w) = Ok b -> b = goes_on (rocket w).
Proof. destruct (update_spec w) as (r & h & E & Hb & _). rewrite E. apply Hb. Qed.

Lemma update_quiet w :
  Forall quiet (observers (rocket w)) -> staged (rocket w) ->
  fst (RocketSystem.updateFlightParameters w) = Ok (goes_on (rocket w)).
Proof. destruct (update_spec w) as (r & h & E & _ & Hq). rewrite E. apply Hq. Qed.

Lemma advanceLoop_S n w :
  RocketSystem.advanceLoop (S n) w
  = match RocketSystem.updateFlightParameters w with
    | (Ok b, w1) => if b then RocketSystem.advanceLoop n w1 else (Ok tt, w1)
    | (Throw e, w1) => (Throw e, w1)
    end.
Proof.
  cbn [RocketSystem.advanceLoop]. unfold bind at 1.
  destruct (RocketSystem.updateFlightParameters w) as [[[]|e] w1]; reflexivity.
Qed.

Lemma advanceTime_rocket seconds w :
  exists k, rocket (snd (RocketSystem.advanceTime seconds w)) = flown k (rocket w).
Proof.
  destruct (decide (status (state (rocket w)) = IN_FLIGHT)) as [Hr|Hr].
  - destruct (advanceTime_flying seconds w Hr) as (r & h & k & E & _).
    exists k. by rewrite E.
  - exists O. by rewrite (advanceTime_grounded seconds w Hr).
Qed.

(** A relation that every step respects holds between the rockets two runs
    of the loop of [advanceTime] leave, the shorter run first. *)
Section Prefix.

Variable I : RocketSystem -> Prop.
Variable P : RocketSystem -> RocketSystem -> Prop.
Hypothesis I_step : forall r, I r -> I (stepped r).
Hypothesis P_refl : forall r, P r r.
Hypothesis P_trans : forall r1 r2 r3, P r1 r2 -> P r2 r3 -> P r1 r3.
Hypothesis P_step : forall r, I r -> P r (stepped r).

Lemma flown_related k r : I r -> P r (flown k r).
Proof using All.
  revert r; induction k as [|k IH]; intros r H; cbn [flown]; [apply P_refl|].
  destruct (goes_on r); [|by apply P_step].
  apply P_trans with (stepped r); auto.
Qed.

Lemma loop_prefix n m w :
  (n <= m)%nat -> I (rocket w) ->
  P (rocket (snd (RocketSystem.advanceLoop n w)))
    (rocket (snd (RocketSystem.advanceLoop m w))).
Proof using All.
  revert m w; induction n as [|n IH]; intros m w Hnm Hw.
  - destruct (loop_spec m w) as (r & h & k & E & _). rewrite E.
    apply flown_related, Hw.
  - destruct m as [|m]; [lia|]. rewrite !advanceLoop_S.
    pose proof (update_rocket w) as Hr.
    destruct (RocketSystem.updateFlightParameters w) as [[[]|e] w1];
      cbn [snd] in *; try apply P_refl.
    apply IH; [lia|]. rewrite Hr. by apply I_step.
Qed.

End Prefix.

(* ===================================================================== *)
(** ** The scenario of the specification *)
(* ===================================================================== *)

(** C1.  From a freshly constructed rocket system (stage 0, fuel 100,
    altitude 0, speed 0, PRE_LAUNCH), [performPreLaunchChecks(); launch();
    advanceTime(10)] gives fuel 90, altitude 100, speed 10000, stage 1,
    IN_FLIGHT; the following [advanceTime(60)] stops at the 16th second in
    all: after 5 more seconds the rocket is still in flight at 150 km, the
    6th reaches ORBIT_ACHIEVED with fuel 84, altitude 160, speed 16000 and
    stage 1 with the Stage 1 strategy (no separation took place), and any
    request of 6 seconds or more ends in that same world.  In a step the
    orbit test comes before the separation test: whenever the fuel left
    after the burn is at least 5 and the altitude reached at least 160,
    the step ends in ORBIT_ACHIEVED with the stage counter and the strategy
    as they were, whatever the separation predicate says. *)
Theorem scenario_orbit_at_second_16 (h : Logger) (rnd : nat -> Q) (n : nat) :
  let w0 := RocketSystem.new h rnd n in
  let w1 := snd (RocketSystem.performPreLaunchChecks w0) in
  let w2 := snd (RocketSystem.launch w1) in
  let w3 := snd (RocketSystem.advanceTime 10 w2) in
  let w4 := snd (RocketSystem.advanceTime 60 w3) in
  state (rocket w0) = mkRocketState 0 100 0 0 PRE_LAUNCH
  /\ fst (RocketSystem.performPreLaunchChecks w0) = Ok tt
  /\ state (rocket w1) = mkRocketState 0 100 0 0 READY_TO_LAUNCH
  /\ fst (RocketSystem.launch w1) = Ok tt
  /\ state (rocket w2) = mkRocketState 1 100 0 0 IN_FLIGHT
  /\ fst (RocketSystem.advanceTime 10 w2) = Ok tt
  /\ state (rocket w3) = mkRocketState 1 90 100 10000 IN_FLIGHT
  /\ fst (RocketSystem.advanceTime 60 w3) = Ok tt
  /\ state (rocket w4) = mkRocketState 1 84 160 16000 ORBIT_ACHIEVED
  /\ currentStageStrategy (rocket w4) = Some Stage1Strategy
  /\ state (rocket (snd (RocketSystem.advanceTime 5 w3)))
     = mkRocketState 1 85 150 15000 IN_FLIGHT
  /\ (forall seconds, 6 <= seconds -> RocketSystem.advanceTime seconds w3 = (Ok tt, w4))
  /\ (forall (w : World) (strategy : IStageStrategy),
        currentStageStrategy (rocket w) = Some strategy ->
        (160 <= altitude (state (rocket w)) + getAltitudeIncrement strategy)%Q ->
        (5 <= fuel (state (rocket w)) - getFuelConsumptionRate strategy)%Q ->
        let w' := snd (RocketSystem.updateFlightParameters w) in
        status (state (rocket w')) = ORBIT_ACHIEVED
        /\ stage (state (rocket w')) = stage (state (rocket w))
        /\ currentStageStrategy (rocket w') = Some strategy
        /\ fst (RocketSystem.updateFlightParameters w) <> Ok true).
Proof.
  intros w0 w1 w2 w3 w4.
  destruct (checks_spec w0) as (r & h1 & E & Q).
  specialize (Q (Forall_nil_2 _)). subst r.
  subst w4 w3 w2 w1. rewrite E. clear E. subst w0.
  cbn [snd fst RocketSystem.new rocket random drawn checked state
       currentStageStrategy observers set_status new_RocketState
       stage fuel altitude speed status].
  do 11 (split; [vm_compute; reflexivity|]).
  split.
  - intros seconds Hs.
    assert (exists m, Z.to_nat seconds = (6 + m)%nat) as [m Hm].
    { exists (Z.to_nat seconds - 6)%nat. lia. }
    unfold RocketSystem.advanceTime at 1.
    rewrite Hm. vm_compute. reflexivity.
  - intros w strategy Hs Ha Hf.
    assert (fst (RocketSystem.updateFlightParameters w) <> Ok true) as Hr.
    { intros Hr. apply update_result in Hr. revert Hr. unfold goes_on. rewrite Hs.
      unfold Qge_bool, ORBIT_ALTITUDE, MIN_FUEL_FOR_ORBIT.
      apply Qle_bool_iff in Ha, Hf. rewrite Ha, Hf.
      by destruct (Qle_bool _ 0). }
    revert Hr. generalize (fst (RocketSystem.updateFlightParameters w)). intros r Hr.
    rewrite update_rocket. revert Hs Ha Hf. generalize (rocket w). intros r0 Hs Ha Hf.
    step_cases r0; simplify_eq; tests;
      cbn [getFuelConsumptionRate getAltitudeIncrement] in *;
      try (exfalso; lra); auto.
Qed.

(* ===================================================================== *)
(** ** Terminal states *)
(* ===================================================================== *)

Definition terminal (s : MissionStatus) : Prop := s = ORBIT_ACHIEVED \/ s = MISSION_FAILED.

(** C2, as the code has it.  [launch] and [advanceTime] leave a terminal
    status (ORBIT_ACHIEVED, MISSION_FAILED) alone, and the guards of the
    three commands refuse to run in one; but [performPreLaunchChecks],
    which tests nothing, moves any status to READY_TO_LAUNCH: a rocket
    flown to orbit through the public operations is back to
    READY_TO_LAUNCH after it, and in flight again after a further
    [launch]. *)
Theorem checks_leave_terminal_state :
  (forall w, terminal (status (state (rocket w))) ->
     status (state (rocket (snd (RocketSystem.launch w)))) = status (state (rocket w))
     /\ (forall seconds,
           status (state (rocket (snd (RocketSystem.advanceTime seconds w))))
           = status (state (rocket w)))
     /\ canExecute StartChecksCommand w = (Ok false, w)
     /\ canExecute LaunchCommand w = (Ok false, w)
     /\ (forall seconds, canExecute (FastForwardCommand seconds) w = (Ok false, w)))
  /\ (forall w,
        status (state (rocket (snd (RocketSystem.performPreLaunchChecks w))))
        = READY_TO_LAUNCH)
  /\ (let w := run_ops [PerformPreLaunchChecks; Launch; AdvanceTime 16]
                 (RocketSystem.new [] (fun _ => 1 # 2)%Q 0) in
      state (rocket w) = mkRocketState 1 84 160 16000 ORBIT_ACHIEVED
      /\ fst (RocketSystem.performPreLaunchChecks w) = Ok tt
      /\ state (rocket (run_ops [PerformPreLaunchChecks] w))
         = mkRocketState 1 84 160 16000 READY_TO_LAUNCH
      /\ state (rocket (run_ops [PerformPreLaunchChecks; Launch] w))
         = mkRocketState 1 84 160 16000 IN_FLIGHT).
Proof.
  split; [|split].
  - intros w Ht. split; [|split; [intros seconds|]].
    + rewrite launch_grounded; [done|]. destruct Ht as [-> | ->]; discriminate.
    + rewrite advanceTime_grounded; [done|]. destruct Ht as [-> | ->]; discriminate.
    + unfold canExecute, StartChecksCommand, LaunchCommand, FastForwardCommand,
        RocketSystem.getState, bind, gets, ret, clone. cbn [status].
      destruct Ht as [-> | ->]; by repeat split.
  - intros w. destruct (checks_spec w) as (r & h & E & _). by rewrite E.
  - vm_compute. by repeat split.
Qed.

(** Without such a second round of checks the fuel never runs out: the
    first flight is in orbit at second 16.  After enough of them it does. *)
Example flight_runs_dry :
  let w := snd (RocketSystem.advanceTime 1 world_running_dry) in
  fst (RocketSystem.advanceTime 1 world_running_dry) = Ok tt
  /\ stage (state (rocket w)) = 2
  /\ fuel (state (rocket w)) = 0%Q
  /\ status (state (rocket w)) = MISSION_FAILED.
Proof. vm_compute. by repeat split. Qed.

(* ===================================================================== *)
(** ** Fuel, altitude and speed along a flight *)
(* ===================================================================== *)

(** C4.  In every world a client can reach the fuel is within [0, 100].
    A one-second step never raises it and never makes it negative: when
    the fuel left after the burn of the stage is <= 0 the step sets it to
    exactly 0, sets the status to MISSION_FAILED and stops the loop,
    otherwise the fuel is the old one less the burn.  So the fuel after a
    longer run of the loop is at most the fuel after a shorter one, and it
    does not rise over a call of [advanceTime] or over any sequence of
    such calls. *)
Theorem fuel_never_rises (h : Logger) (rnd : nat -> Q) (n : nat) (ops : list Op) :
  let w := run_ops ops (RocketSystem.new h rnd n) in
  let w' := snd (RocketSystem.updateFlightParameters w) in
  (0 <= fuel (state (rocket w)) /\ fuel (state (rocket w)) <= 100)%Q
  /\ (0 <= fuel (state (rocket w')) /\ fuel (state (rocket w')) <= fuel (state (rocket w)))%Q
  /\ (forall strategy,
        currentStageStrategy (rocket w) = Some strategy ->
        (fuel (state (rocket w)) - getFuelConsumptionRate strategy <= 0)%Q ->
        fuel (state (rocket w')) = 0%Q
        /\ status (state (rocket w')) = MISSION_FAILED
        /\ fst (RocketSystem.updateFlightParameters w) <> Ok true)
  /\ (forall strategy,
        currentStageStrategy (rocket w) = Some strategy ->
        (0 < fuel (state (rocket w)) - getFuelConsumptionRate strategy)%Q ->
        fuel (state (rocket w'))
        = (fuel (state (rocket w)) - getFuelConsumptionRate strategy)%Q)
  /\ (forall i j, (i <= j)%nat ->
        (0 <= fuel (state (rocket (snd (RocketSystem.advanceLoop j w))))
         /\ fuel (state (rocket (snd (RocketSystem.advanceLoop j w))))
            <= fuel (state (rocket (snd (RocketSystem.advanceLoop i w)))))%Q)
  /\ (forall seconds,
        (0 <= fuel (state (rocket (snd (RocketSystem.advanceTime seconds w))))
         /\ fuel (state (rocket (snd (RocketSystem.advanceTime seconds w))))
            <= fuel (state (rocket w)))%Q)
  /\ (forall l : list Z,
        (0 <= fuel (state (rocket (run_ops (map AdvanceTime l) w)))
         /\ fuel (state (rocket (run_ops (map AdvanceTime l) w)))
            <= fuel (state (rocket w)))%Q).
Proof.
  intros w w'.
  assert (0 <= fuel (state (rocket w)) /\ fuel (state (rocket w)) <= 100)%Q as [H0 H100].
  { destruct (reachable_numbers h rnd n ops) as (_ & _ & _ & H & _). exact H. }
  split; [done|]. subst w'. rewrite update_rocket.
  split; [by apply stepped_fuel|].
  split; [|split; [|split; [|split]]].
  - intros strategy Hs Hf.
    assert (fst (RocketSystem.updateFlightParameters w) <> Ok true) as Hr.
    { intros Hr. apply update_result in Hr. revert Hr. unfold goes_on. rewrite Hs.
      apply Qle_bool_iff in Hf. rewrite Hf. discriminate. }
    revert Hr. generalize (fst (RocketSystem.updateFlightParameters w)). intros r Hr.
    revert Hs Hf. generalize (rocket w). intros r0 Hs Hf.
    step_cases r0; simplify_eq; tests;
      cbn [getFuelConsumptionRate] in *; try (exfalso; lra); auto.
  - intros strategy Hs Hf. revert Hs Hf. generalize (rocket w). intros r0 Hs Hf.
    step_cases r0; simplify_eq; tests;
      cbn [getFuelConsumptionRate] in *; try (exfalso; lra); auto.
  - intros i j Hij. split.
    + destruct (loop_spec j w) as (r & h' & k & E & _). rewrite E.
      by apply flown_fuel.
    + apply (loop_prefix (fun r => 0 <= fuel (state r))%Q
               (fun r r' => fuel (state r') <= fuel (state r))%Q); try done.
      * intros r Hr. by apply stepped_fuel.
      * intros r. lra.
      * intros r1 r2 r3 ? ?. lra.
      * intros r Hr. by apply stepped_fuel.
  - intros seconds. destruct (advanceTime_rocket seconds w) as [k ->].
    by apply flown_fuel.
  - intros l. revert H0. clear. generalize w. clear w.
    induction l as [|seconds l IH]; intros w H0; cbn [map run_ops fold_left]; [lra|].
    destruct (advanceTime_rocket seconds w) as [k Hk].
    destruct (flown_fuel k (rocket w) H0) as [H1 H2].
    rewrite <- Hk in H1, H2.
    destruct (IH _ H1) as [H3 H4]. cbn [call]. split; [exact H3|].
    eapply Qle_trans; [exact H4|exact H2].
Qed.

(** C5.  Altitude and speed never fall over a one-second step, over a
    longer run of the loop of [advanceTime] compared with a shorter one,
    or over a call of [advanceTime].  A step that asks the loop to go on
    (it met neither fuel exhaustion nor orbit) adds exactly the altitude
    and speed increments of the strategy in force when the step began, and
    so does every step in which the fuel left after the burn is positive;
    the step that runs out of fuel leaves altitude and speed as they
    were. *)
Theorem altitude_speed_never_fall (w : World) :
  let w' := snd (RocketSystem.updateFlightParameters w) in
  (altitude (state (rocket w)) <= altitude (state (rocket w'))
   /\ speed (state (rocket w)) <= speed (state (rocket w')))%Q
  /\ (fst (RocketSystem.updateFlightParameters w) = Ok true ->
      exists strategy,
        currentStageStrategy (rocket w) = Some strategy
        /\ altitude (state (rocket w'))
           = (altitude (state (rocket w)) + getAltitudeIncrement strategy)%Q
        /\ speed (state (rocket w'))
           = (speed (state (rocket w)) + getSpeedIncrement strategy)%Q)
  /\ (forall strategy,
        currentStageStrategy (rocket w) = Some strategy ->
        (0 < fuel (state (rocket w)) - getFuelConsumptionRate strategy)%Q ->
        altitude (state (rocket w'))
        = (altitude (state (rocket w)) + getAltitudeIncrement strategy)%Q
        /\ speed (state (rocket w'))
           = (speed (state (rocket w)) + getSpeedIncrement strategy)%Q)
  /\ (forall strategy,
        currentStageStrategy (rocket w) = Some strategy ->
        (fuel (state (rocket w)) - getFuelConsumptionRate strategy <= 0)%Q ->
        altitude (state (rocket w')) = altitude (state (rocket w))
        /\ speed (state (rocket w')) = speed (state (rocket w))
        /\ status (state (rocket w')) = MISSION_FAILED
        /\ fst (RocketSystem.updateFlightParameters w) <> Ok true)
  /\ (forall i j, (i <= j)%nat ->
        (altitude (state (rocket (snd (RocketSystem.advanceLoop i w))))
         <= altitude (state (rocket (snd (RocketSystem.advanceLoop j w))))
         /\ speed (state (rocket (snd (RocketSystem.advanceLoop i w))))
            <= speed (state (rocket (snd (RocketSystem.advanceLoop j w)))))%Q)
  /\ (forall seconds,
        (altitude (state (rocket w))
         <= altitude (state (rocket (snd (RocketSystem.advanceTime seconds w))))
         /\ speed (state (rocket w))
            <= speed (state (rocket (snd (RocketSystem.advanceTime seconds w)))))%Q).
Proof.
  intros w'. subst w'. rewrite update_rocket.
  split; [split; [apply stepped_altitude|apply stepped_speed]|].
  split; [|split; [|split; [|split]]].
  - intros Hr. apply update_result in Hr. symmetry in Hr.
    revert Hr. generalize (rocket w). intros r0 Hr.
    step_cases r0; try discriminate; eexists; (split; [reflexivity|]);
      cbn [getAltitudeIncrement getSpeedIncrement]; auto.
  - intros strategy Hs Hf. revert Hs Hf. generalize (rocket w). intros r0 Hs Hf.
    step_cases r0; simplify_eq; tests;
      cbn [getFuelConsumptionRate getAltitudeIncrement getSpeedIncrement] in *;
      try (exfalso; lra); auto.
  - intros strategy Hs Hf.
    assert (fst (RocketSystem.updateFlightParameters w) <> Ok true) as Hr.
    { intros Hr. apply update_result in Hr. revert Hr. unfold goes_on. rewrite Hs.
      apply Qle_bool_iff in Hf. rewrite Hf. discriminate. }
    revert Hr. generalize (fst (RocketSystem.updateFlightParameters w)). intros r Hr.
    revert Hs Hf. generalize (rocket w). intros r0 Hs Hf.
    step_cases r0; simplify_eq; tests;
      cbn [getFuelConsumptionRate] in *; try (exfalso; lra); auto.
  - intros i j Hij. split.
    + apply (loop_prefix (fun _ => True)
               (fun r r' => altitude (state r) <= altitude (state r'))%Q); try done.
      * intros r. lra.
      * intros r1 r2 r3 ? ?. lra.
      * intros r _. apply stepped_altitude.
    + apply (loop_prefix (fun _ => True)
               (fun r r' => speed (state r) <= speed (state r'))%Q); try done.
      * intros r. lra.
      * intros r1 r2 r3 ? ?. lra.
      * intros r _. apply stepped_speed.
  - intros seconds. destruct (advanceTime_rocket seconds w) as [k ->].
    split; [apply flown_altitude|apply flown_speed].
Qed.

Lemma altitude_speed_never_fall_witness :
  (fst (RocketSystem.updateFlightParameters world_before_separation) = Ok true
   /\ exists strategy,
        currentStageStrategy (rocket world_before_separation) = Some strategy
        /\ altitude (state (rocket (snd (RocketSystem.updateFlightParameters
                                           world_before_separation))))
           = (altitude (state (rocket world_before_separation))
              + getAltitudeIncrement strategy)%Q
        /\ speed (state (rocket (snd (RocketSystem.updateFlightParameters
                                        world_before_separation))))
           = (speed (state (rocket world_before_separation))
              + getSpeedIncrement strategy)%Q)
  /\ (currentStageStrategy (rocket world_running_dry) = Some Stage2Strategy
      /\ (fuel (state (rocket world_running_dry))
          - getFuelConsumptionRate Stage2Strategy <= 0)%Q
      /\ altitude (state (rocket (snd (RocketSystem.updateFlightParameters
                                         world_running_dry))))
         = altitude (state (rocket world_running_dry))
      /\ speed (state (rocket (snd (RocketSystem.updateFlightParameters
                                      world_running_dry))))
         = speed (state (rocket world_running_dry))
      /\ status (state (rocket (snd (RocketSystem.updateFlightParameters
                                       world_running_dry))))
         = MISSION_FAILED).
Proof.
  assert (fst (RocketSystem.updateFlightParameters world_before_separation) = Ok true)
    as H1 by (vm_compute; reflexivity).
  assert (currentStageStrategy (rocket world_running_dry) = Some Stage2Strategy) as H2
    by apply world_running_dry_state.
  assert (fuel (state (rocket world_running_dry))
          - getFuelConsumptionRate Stage2Strategy <= 0)%Q as H3
    by (vm_compute; discriminate).
  split.
  - split; [exact H1|].
    exact (proj1 (proj2 (altitude_speed_never_fall world_before_separation)) H1).
  - split; [exact H2|]. split; [exact H3|].
    destruct (altitude_speed_never_fall world_running_dry) as (_ & _ & _ & H & _).
    destruct (H Stage2Strategy H2 H3) as (Ha & Hv & Hf & _).
    exact (conj Ha (conj Hv Hf)).
Defined.

(* ===================================================================== *)
(** ** Stage separation *)
(* ===================================================================== *)

(** C9.  With the Stage 1 strategy in force and the stage counter at 1, a
    step after whose burn the fuel is in (0, 30], and after whose
    increments the orbit test (altitude >= 160 and fuel >= 5) fails, sets
    the counter to 2 and installs the Stage 2 strategy in that same step.
    The step used the Stage 1 rates, it does not ask the loop to stop (it
    returns [true] whenever no observer throws), and the step that follows
    burns and climbs at the Stage 2 rates. *)
Theorem separation_step (w : World) :
  currentStageStrategy (rocket w) = Some Stage1Strategy ->
  stage (state (rocket w)) = 1 ->
  status (state (rocket w)) = IN_FLIGHT ->
  (0 < fuel (state (rocket w)) - 1)%Q ->
  (fuel (state (rocket w)) - 1 <= 30)%Q ->
  ~ (160 <= altitude (state (rocket w)) + 10 /\ 5 <= fuel (state (rocket w)) - 1)%Q ->
  let w' := snd (RocketSystem.updateFlightParameters w) in
  let w'' := snd (RocketSystem.updateFlightParameters w') in
  stage (state (rocket w')) = 2
  /\ currentStageStrategy (rocket w') = Some Stage2Strategy
  /\ status (state (rocket w')) = IN_FLIGHT
  /\ fuel (state (rocket w')) = (fuel (state (rocket w)) - 1)%Q
  /\ altitude (state (rocket w')) = (altitude (state (rocket w)) + 10)%Q
  /\ speed (state (rocket w')) = (speed (state (rocket w)) + 1000)%Q
  /\ fst (RocketSystem.updateFlightParameters w) <> Ok false
  /\ (Forall quiet (observers (rocket w)) ->
      fst (RocketSystem.updateFlightParameters w) = Ok true)
  /\ stage (state (rocket w'')) = 2
  /\ currentStageStrategy (rocket w'') = Some Stage2Strategy
  /\ ((0 < fuel (state (rocket w')) - (1 # 2))%Q ->
      fuel (state (rocket w'')) = (fuel (state (rocket w')) - (1 # 2))%Q
      /\ altitude (state (rocket w'')) = (altitude (state (rocket w')) + 15)%Q
      /\ speed (state (rocket w'')) = (speed (state (rocket w')) + 800)%Q).
Proof.
  intros Hs Hst Hfl Hpos H30 Horb w' w''.
  assert (goes_on (rocket w) = true) as Hgo.
  { unfold goes_on. rewrite Hs. cbn [getFuelConsumptionRate getAltitudeIncrement].
    apply andb_true_iff. split; apply negb_true_iff.
    - apply not_true_is_false. intros H. apply Qle_bool_iff in H. lra.
    - apply not_true_is_false. intros H. tests. lra. }
  assert (fst (RocketSystem.updateFlightParameters w) <> Ok false) as Hr.
  { intros H. apply update_result in H. congruence. }
  assert (Forall quiet (observers (rocket w)) ->
          fst (RocketSystem.updateFlightParameters w) = Ok true) as Hq.
  { intros HQ. rewrite update_quiet; [by rewrite Hgo|done|]. right; left. done. }
  subst w'' w'. rewrite !update_rocket.
  revert Hr Hq. generalize (fst (RocketSystem.updateFlightParameters w)). intros r Hr Hq.
  clear Hgo. revert Hs Hst Hfl Hpos H30 Horb Hq. generalize (rocket w). intros r0.
  intros Hs Hst Hfl Hpos H30 Horb Hq.
  destruct r0 as [s o obs]. cbn [state currentStageStrategy observers] in *. subst o.
  assert (stepped (mkRocketSystem s (Some Stage1Strategy) obs)
          = mkRocketSystem
              (mkRocketState 2 (fuel s - 1) (altitude s + 10) (speed s + 1000) IN_FLIGHT)
              (Some Stage2Strategy) obs) as Estep.
  { unfold stepped. cbn [state currentStageStrategy observers
      getFuelConsumptionRate getAltitudeIncrement getSpeedIncrement shouldSeparate
      set_fuel set_altitude set_speed set_status set_stage
      fuel altitude speed stage status].
    destruct (Qle_bool (fuel s - 1) 0) eqn:E1; [tests; exfalso; lra|].
    destruct (Qge_bool (altitude s + 10) ORBIT_ALTITUDE
              && Qge_bool (fuel s - 1) MIN_FUEL_FOR_ORBIT) eqn:E2; [tests; exfalso; lra|].
    destruct (Qle_bool (fuel s - 1) 30) eqn:E3; [|tests; exfalso; lra].
    rewrite Hst. change (StageFactory.createStage (1 + 1)) with (Ok Stage2Strategy).
    cbv iota. unfold set_stage, set_speed, set_altitude, set_fuel.
    cbn [fuel altitude speed stage status]. by rewrite Hfl. }
  rewrite Estep. cbn [state currentStageStrategy observers fuel altitude speed stage status].
  do 8 (split; [done|]).
  unfold stepped. cbn [state currentStageStrategy observers
    getFuelConsumptionRate getAltitudeIncrement getSpeedIncrement shouldSeparate
    set_fuel set_altitude set_speed set_status set_stage fuel altitude speed stage status].
  repeat (case_match; cbn [state currentStageStrategy observers
    set_fuel set_altitude set_speed set_status set_stage fuel altitude speed stage status]);
    repeat split; try done; intros; tests; exfalso; lra.
Qed.

Lemma separation_step_witness :
  (currentStageStrategy (rocket world_before_separation) = Some Stage1Strategy
   /\ stage (state (rocket world_before_separation)) = 1
   /\ status (state (rocket world_before_separation)) = IN_FLIGHT
   /\ (0 < fuel (state (rocket world_before_separation)) - 1)%Q
   /\ (fuel (state (rocket world_before_separation)) - 1 <= 30)%Q
   /\ ~ (160 <= altitude (state (rocket world_before_separation)) + 10
         /\ 5 <= fuel (state (rocket world_before_separation)) - 1)%Q)
  /\ stage (state (rocket (snd (RocketSystem.updateFlightParameters
                                  world_before_separation)))) = 2
  /\ currentStageStrategy (rocket (snd (RocketSystem.updateFlightParameters
                                          world_before_separation)))
     = Some Stage2Strategy
  /\ fst (RocketSystem.updateFlightParameters world_before_separation) = Ok true.
Proof.
  destruct world_before_separation_state as [Hstate Hs].
  assert (stage (state (rocket world_before_separation)) = 1) as Hst
    by (rewrite Hstate; reflexivity).
  assert (status (state (rocket world_before_separation)) = IN_FLIGHT) as Hfl
    by (rewrite Hstate; reflexivity).
  assert (0 < fuel (state (rocket world_before_separation)) - 1)%Q as Hpos
    by (rewrite Hstate; reflexivity).
  assert (fuel (state (rocket world_before_separation)) - 1 <= 30)%Q as H30
    by (rewrite Hstate; discriminate).
  assert (~ (160 <= altitude (state (rocket world_before_separation)) + 10
             /\ 5 <= fuel (state (rocket world_before_separation)) - 1)%Q) as Horb.
  { rewrite Hstate. intros [_ H]. by apply H. }
  split; [exact (conj Hs (conj Hst (conj Hfl (conj Hpos (conj H30 Horb)))))|].
  destruct (separation_step world_before_separation Hs Hst Hfl Hpos H30 Horb)
    as (H1 & H2 & _ & _ & _ & _ & _ & H3 & _).
  split; [exact H1|]. split; [exact H2|].
  exact (H3 (proj1 (proj2 (proj2 sample_observers)))).
Defined.

(** C10.  In every world a client can reach from a fresh rocket system by
    [performPreLaunchChecks], [launch], [advanceTime] (and [addObserver])
    the stage counter is 0, 1 or 2 and agrees with the strategy in force.
    The Stage 2 predicate is constantly false, so a step calls
    [separateStage] only at counter 1 under the Stage 1 strategy, where
    the [StageFactory.createStage] it calls gets 2 and returns the Stage 2
    strategy.  So the unknown-stage error is never thrown there: as long
    as no observer throws, a step returns and [advanceTime] in flight
    returns normally. *)
Theorem unknown_stage_unreachable (h : Logger) (rnd : nat -> Q) (n : nat) (ops : list Op) :
  let w := run_ops ops (RocketSystem.new h rnd n) in
  (0 <= stage (state (rocket w)) <= 2)
  /\ staged (rocket w)
  /\ (forall f, shouldSeparate Stage2Strategy f = false)
  /\ (forall strategy f,
        currentStageStrategy (rocket w) = Some strategy ->
        shouldSeparate strategy f = true ->
        strategy = Stage1Strategy
        /\ stage (state (rocket w)) = 1
        /\ StageFactory.createStage (stage (state (rocket w)) + 1) = Ok Stage2Strategy)
  /\ (0 <= stage (state (rocket (snd (RocketSystem.updateFlightParameters w)))) <= 2)
  /\ (Forall quiet (observers (rocket w)) ->
      (exists b, fst (RocketSystem.updateFlightParameters w) = Ok b)
      /\ forall seconds,
          status (state (rocket w)) = IN_FLIGHT ->
          fst (RocketSystem.advanceTime seconds w) = Ok tt).
Proof.
  intros w.
  assert (sound (rocket w)) as Hsound by apply run_ops_sound, new_sound.
  assert (forall r, staged r -> 0 <= stage (state r) <= 2) as Hbound.
  { intros r [(-> & _)|[(-> & _)|(-> & _)]]; lia. }
  destruct Hsound as [Hs _].
  split; [by apply Hbound|]. split; [exact Hs|]. split; [done|].
  split; [|split].
  - intros strategy f Hc Hsep.
    destruct Hs as [(_ & H)|[(H1 & H)|(_ & H)]]; rewrite H in Hc; simplify_eq.
    rewrite H1. by repeat split.
  - rewrite update_rocket. by apply Hbound, stepped_staged.
  - intros HQ. split.
    + eexists. by apply update_quiet.
    + intros seconds Hfl.
      destruct (advanceTime_flying seconds w Hfl) as (r & h' & k & E & _ & Hq).
      rewrite E. by destruct (Hq HQ Hs).
Qed.

Lemma unknown_stage_unreachable_witness :
  let w := run_ops [AddObserver ConsoleDisplay; PerformPreLaunchChecks; Launch; AdvanceTime 9]
             (RocketSystem.new [] (fun _ => 1 # 2)%Q 0) in
  stage (state (rocket w)) = 1
  /\ status (state (rocket w)) = IN_FLIGHT
  /\ fst (RocketSystem.advanceTime 100 w) = Ok tt.
Proof.
  intros w. split; [reflexivity|]. split; [reflexivity|].
  destruct (unknown_stage_unreachable [] (fun _ => 1 # 2)%Q 0
              [AddObserver ConsoleDisplay; PerformPreLaunchChecks; Launch; AdvanceTime 9])
    as (_ & _ & _ & _ & _ & H).
  apply H; [|reflexivity].
  change (Forall quiet [ConsoleDisplay]).
  repeat constructor. apply ConsoleDisplay_quiet.
Defined.

(* ===================================================================== *)
(** ** The command invoker *)
(* ===================================================================== *)

(** A guard that reads the world and leaves it as it is. *)
Definition reads_only (guard : M World bool) : Prop :=
  forall w, snd (guard w) = w.

Lemma builtin_guards_read_only :
  reads_only (canExecute StartChecksCommand)
  /\ reads_only (canExecute LaunchCommand)
  /\ forall seconds, reads_only (canExecute (FastForwardCommand seconds)).
Proof. by repeat split. Qed.

(** C7.  [executeCommand command], for an invoker whose history holds [l]:
    - when [canExecute] is false it throws the invalid-state error that
      names the description of the command, the history is untouched, and
      the rocket is as the guard left it, which is as it was for a guard
      that only reads, as those of the three commands of the program do;
    - when [canExecute] is true and [execute] returns, the command is
      appended at the end of the history;
    - when [canExecute] is true and [execute] throws, the same error is
      thrown again and the history is untouched;
    - [getHistory] returns a new array with the same contents: whatever is
      written to it afterwards, the history of the invoker is unchanged. *)
Theorem executeCommand_contract
    (this : CommandInvoker) (command : ICommand) (s : Machine) (l : list ICommand) :
  arrays s !! commandHistory this = Some l ->
  let out := CommandInvoker.executeCommand this command s in
  (forall w1,
      canExecute command (world s) = (Ok false, w1) ->
      fst out = Throw (InvalidStateException
                         ("Cannot execute command: " +:+ getDescription command))
      /\ arrays (snd out) = arrays s
      /\ rocket (world (snd out)) = rocket w1
      /\ (reads_only (canExecute command) -> rocket (world (snd out)) = rocket (world s)))
  /\ (forall w1 w2,
        canExecute command (world s) = (Ok true, w1) ->
        execute command (snd (info ("Executing: " +:+ getDescription command) w1))
        = (Ok tt, w2) ->
        out = (Ok tt, mkMachine w2 (<[commandHistory this := l ++ [command]]> (arrays s))))
  /\ (forall w1 w2 e,
        canExecute command (world s) = (Ok true, w1) ->
        execute command (snd (info ("Executing: " +:+ getDescription command) w1))
        = (Throw e, w2) ->
        fst out = Throw e
        /\ arrays (snd out) = arrays s
        /\ rocket (world (snd out)) = rocket w2)
  /\ (reads_only (canExecute StartChecksCommand)
      /\ reads_only (canExecute LaunchCommand)
      /\ forall seconds, reads_only (canExecute (FastForwardCommand seconds)))
  /\ (exists a s',
        CommandInvoker.getHistory this s = (Ok a, s')
        /\ a <> commandHistory this
        /\ arrays s' !! a = Some l
        /\ arrays s' !! commandHistory this = Some l
        /\ world s' = world s
        /\ forall l', arrays (snd (array_write a l' s')) !! commandHistory this = Some l).
Proof.
  intros Hl out. subst out.
  split; [|split; [|split; [|split]]].
  - intros w1 Hc.
    unfold CommandInvoker.executeCommand, try_catch, bind, in_world, throw, info, error,
      log, modify.
    rewrite Hc. cbn [negb instanceof_SimulatorException message fst snd world arrays].
    repeat split; try done.
    intros Hread. specialize (Hread (world s)). rewrite Hc in Hread.
    cbn [snd] in Hread. by rewrite Hread.
  - intros w1 w2 Hc He.
    unfold CommandInvoker.executeCommand, try_catch, bind, in_world, throw, info, error,
      log, modify, array_push, array_read, array_write in *.
    rewrite Hc. cbn [negb fst snd world arrays] in *. rewrite He.
    unfold bind, modify. cbn [world arrays]. rewrite Hl. reflexivity.
  - intros w1 w2 e Hc He.
    unfold CommandInvoker.executeCommand, try_catch, bind, in_world, throw, info, error,
      log, modify in *.
    rewrite Hc. cbn [negb fst snd world arrays] in *. rewrite He.
    destruct (instanceof_SimulatorException e); cbn [fst snd world arrays rocket with_logger];
      by repeat split.
  - exact builtin_guards_read_only.
  - unfold CommandInvoker.getHistory, array_spread, bind, array_read, array_new.
    rewrite Hl.
    assert (fresh (dom (arrays s)) <> commandHistory this) as Hfresh.
    { intros Heq. pose proof (is_fresh (dom (arrays s))) as Hf.
      rewrite Heq in Hf. apply Hf, elem_of_dom. by exists l. }
    eexists _, _. split; [reflexivity|]. cbn [arrays world].
    split; [exact Hfresh|]. split; [apply lookup_insert_eq|].
    split; [by rewrite lookup_insert_ne|]. split; [done|].
    intros l'. unfold array_write, modify. cbn [snd arrays].
    rewrite !lookup_insert_ne; done.
Qed.

(** An observer whose callback throws. *)
Definition FailingDisplay : IRocketObserver :=
  {| onStateUpdate _ := throw (OtherError "display failed") |}.

(** A machine with a fresh rocket system, the display registered, and an
    invoker with an empty history. *)
Definition machine_start : Machine :=
  mkMachine
    (mkWorld (mkRocketSystem new_RocketState None [ConsoleDisplay]) [] (fun _ => 1 # 2)%Q 0)
    {[ 1%positive := [] ]}.

(** The same with the checks done and a display that throws. *)
Definition machine_failing : Machine :=
  mkMachine
    (mkWorld
       (mkRocketSystem (mkRocketState 0 100 0 0 READY_TO_LAUNCH) None [FailingDisplay])
       [] (fun _ => 1 # 2)%Q 5)
    {[ 1%positive := [] ]}.

Lemma executeCommand_contract_witness :
  let this := mkCommandInvoker 1 in
  arrays machine_start !! commandHistory this = Some []
  /\ (fst (CommandInvoker.executeCommand this LaunchCommand machine_start)
      = Throw (InvalidStateException "Cannot execute command: Launch the rocket")
      /\ arrays (snd (CommandInvoker.executeCommand this LaunchCommand machine_start))
         = arrays machine_start
      /\ rocket (world (snd (CommandInvoker.executeCommand this LaunchCommand machine_start)))
         = rocket (world machine_start))
  /\ (fst (CommandInvoker.executeCommand this StartChecksCommand machine_start) = Ok tt
      /\ arrays (snd (CommandInvoker.executeCommand this StartChecksCommand machine_start))
           !! commandHistory this
         = Some [StartChecksCommand])
  /\ (fst (CommandInvoker.executeCommand this LaunchCommand machine_failing)
      = Throw (OtherError "display failed")
      /\ arrays (snd (CommandInvoker.executeCommand this LaunchCommand machine_failing))
         = arrays machine_failing).
Proof.
  intros this.
  assert (arrays machine_start !! commandHistory this = Some []) as Hl by reflexivity.
  assert (arrays machine_failing !! commandHistory this = Some []) as Hl' by reflexivity.
  split; [exact Hl|].
  split; [|split].
  - destruct (executeCommand_contract this LaunchCommand machine_start [] Hl)
      as (H & _).
    destruct (H (world machine_start) eq_refl) as (H1 & H2 & H3 & _).
    by repeat split.
  - destruct (executeCommand_contract this StartChecksCommand machine_start [] Hl)
      as (_ & H & _).
    rewrite (H (world machine_start)
               (snd (execute StartChecksCommand
                       (snd (info ("Executing: " +:+ getDescription StartChecksCommand)
                               (world machine_start)))))
               eq_refl eq_refl).
    split; [reflexivity|]. cbn [snd arrays]. apply lookup_insert_eq.
  - destruct (executeCommand_contract this LaunchCommand machine_failing [] Hl')
      as (_ & _ & H & _).
    destruct (H (world machine_failing)
                (snd (execute LaunchCommand
                        (snd (info ("Executing: " +:+ getDescription LaunchCommand)
                                (world machine_failing)))))
                (OtherError "display failed") eq_refl eq_refl) as (H1 & H2 & _).
    by split.
Defined.

(** The session of the demonstration in [index.ts]: a new invoker, the
    commands in turn, then the descriptions of the history it returns. *)
Definition session (commands : list ICommand) : M Machine (list string) :=
  let* invoker := CommandInvoker.new in
  forEach (CommandInvoker.executeCommand invoker) commands ;;
  let* a := CommandInvoker.getHistory invoker in
  let* l := array_read a in
  ret (map getDescription l).

Example demo_session :
  let start := mkMachine (snd (RocketSystem.addObserver ConsoleDisplay
                                 (RocketSystem.new [] (fun _ => 1 # 2)%Q 0))) ∅ in
  let out := session [StartChecksCommand; LaunchCommand;
                      FastForwardCommand 10; FastForwardCommand 50] start in
  fst out = Ok [ "Start pre-launch system checks"; "Launch the rocket";
                 "Fast forward 10 seconds"; "Fast forward 50 seconds" ]%string
  /\ state (rocket (world (snd out))) = mkRocketState 1 84 160 16000 ORBIT_ACHIEVED
  /\ last (logger (world (snd out)))
     = Some (INFO, "🎉 Orbit achieved! Mission Successful.")
  /\ fst (session [StartChecksCommand; LaunchCommand; FastForwardCommand 60;
                   FastForwardCommand 1] start)
     = Throw (InvalidStateException "Cannot execute command: Fast forward 1 seconds").
Proof. vm_compute. by repeat split. Qed.

(* ===================================================================== *)
(** ** The sample worlds as traces *)
(* ===================================================================== *)

Definition trace_ready : list Op := [AddObserver ConsoleDisplay; PerformPreLaunchChecks].
Definition trace_in_orbit : list Op := trace_ready ++ [Launch; AdvanceTime 60].
Definition trace_before_separation : list Op :=
  trace_in_orbit ++ concat (replicate 79 relaunch) ++ [PerformPreLaunchChecks; Launch].
Definition trace_running_dry : list Op := trace_before_separation ++ [AdvanceTime 8].

Lemma world_ready_trace :
  world_ready = run_ops trace_ready (RocketSystem.new [] (fun _ => 1 # 2)%Q 0).
Proof. reflexivity. Qed.

Lemma world_in_orbit_trace :
  world_in_orbit = run_ops trace_in_orbit (RocketSystem.new [] (fun _ => 1 # 2)%Q 0).
Proof. vm_compute. reflexivity. Qed.

Lemma world_before_separation_trace :
  world_before_separation
  = run_ops trace_before_separation (RocketSystem.new [] (fun _ => 1 # 2)%Q 0).
Proof. vm_compute. reflexivity. Qed.

Lemma world_running_dry_trace :
  world_running_dry = run_ops trace_running_dry (RocketSystem.new [] (fun _ => 1 # 2)%Q 0).
Proof. vm_compute. reflexivity. Qed.

(* ===================================================================== *)
(** ** More on rocketSystem.ts: what the status tells *)
(* ===================================================================== *)

(** What the status and the strategy of a rocket say about its numbers,
    in every world a client can reach (lemma [run_ops_settled]). *)
Definition settled (r : RocketSystem) : Prop :=
  (status (state r) = IN_FLIGHT -> currentStageStrategy r <> None)
  /\ (status (state r) = ORBIT_ACHIEVED ->
      (160 <= altitude (state r) /\ 5 <= fuel (state r))%Q
      /\ currentStageStrategy r = Some Stage1Strategy)
  /\ (status (state r) = MISSION_FAILED -> fuel (state r) = 0%Q)
  /\ ((1000 <= altitude (state r) + 10 * fuel (state r))%Q
      \/ (fuel (state r) == 0 /\ 990 <= altitude (state r))%Q)
  /\ (currentStageStrategy r = Some Stage2Strategy -> (fuel (state r) < 5)%Q).

Lemma goes_on_status r :
  goes_on r = true -> status (state (stepped r)) = status (state r).
Proof. intros H. step_cases r; try discriminate; reflexivity. Qed.

Lemma halt_cases r :
  goes_on r = false ->
  (currentStageStrategy r = None /\ stepped r = r)
  \/ terminal (status (state (stepped r))).
Proof.
  unfold terminal. intros H.
  step_cases r; try discriminate; auto.
Qed.

Lemma stepped_strategy_some r :
  currentStageStrategy r <> None -> currentStageStrategy (stepped r) <> None.
Proof. intros H. step_cases r; try done. Qed.

Lemma stepped_second_stage r :
  currentStageStrategy r = Some Stage2Strategy ->
  currentStageStrategy (stepped r) = Some Stage2Strategy.
Proof. intros H. step_cases r; simplify_eq; done. Qed.

Lemma stepped_settled r :
  settled r -> status (state r) = IN_FLIGHT -> settled (stepped r).
Proof.
  unfold settled. intros (H1 & H2 & H3 & H4 & H5) Hfl.
  specialize (H1 Hfl). clear H2 H3.
  destruct r as [s o obs]. unfold stepped.
  cbn [state currentStageStrategy observers] in *.
  destruct o as [strategy|]; [clear H1|done].
  assert (strategy = Stage2Strategy -> (fuel s < 5)%Q) as H5'.
  { intros ->. by apply H5. }
  clear H5.
  destruct strategy;
    cbn [getFuelConsumptionRate getAltitudeIncrement getSpeedIncrement shouldSeparate
         set_fuel set_altitude set_speed set_status set_stage
         fuel altitude speed stage status] in *;
    repeat (case_match;
            cbn [state currentStageStrategy observers
                 set_fuel set_altitude set_speed set_status set_stage
                 fuel altitude speed stage status] in * );
    try specialize (H5' eq_refl); tests;
    rewrite ?Hfl;
    (split; [try done|]);
    (split; [try discriminate; try (intros _; split; [lra|done]); try (exfalso; lra)|]);
    (split; [try discriminate; try done|]);
    (split; [try (left; lra); try (right; lra); try (destruct H4; [left|right]; lra)|]);
    try discriminate; try (intros _; destruct H4; lra); try done.
Qed.

Lemma flown_settled n r :
  settled r -> status (state r) = IN_FLIGHT -> settled (flown n r).
Proof.
  revert r; induction n as [|n IH]; intros r H Hfl; cbn [flown]; [done|].
  destruct (goes_on r) eqn:G; [|by apply stepped_settled].
  apply IH; [by apply stepped_settled|]. by rewrite goes_on_status.
Qed.

Lemma new_settled h rnd n : settled (rocket (RocketSystem.new h rnd n)).
Proof.
  unfold settled; cbn. repeat split; try discriminate. left. lra.
Qed.

Lemma call_settled op w : settled (rocket w) -> settled (rocket (snd (call op w))).
Proof.
  intros H. destruct op as [| |seconds|o]; cbn [call].
  - destruct (checks_spec w) as (r & h & E & _). rewrite E.
    destruct H as (_ & _ & _ & H4 & H5).
    unfold settled, checked; cbn. repeat split; try discriminate; done.
  - destruct (decide (status (state (rocket w)) = READY_TO_LAUNCH)) as [Hr|Hr].
    + destruct (launch_ready w Hr) as (r & h & E & _). rewrite E.
      destruct H as (_ & _ & _ & H4 & _).
      unfold settled, launched; cbn. repeat split; try discriminate; done.
    + rewrite (launch_grounded w Hr). exact H.
  - destruct (decide (status (state (rocket w)) = IN_FLIGHT)) as [Hr|Hr].
    + destruct (advanceTime_flying seconds w Hr) as (r & h & k & E & _). rewrite E.
      by apply flown_settled.
    + rewrite (advanceTime_grounded seconds w Hr). exact H.
  - rewrite addObserver_eq. exact H.
Qed.

Lemma run_ops_settled ops w : settled (rocket w) -> settled (rocket (run_ops ops w)).
Proof.
  revert w; induction ops as [|op ops IH]; intros w H; [done|].
  cbn [run_ops fold_left]. apply IH. by apply call_settled.
Qed.

Lemma run_ops_app ops1 ops2 w : run_ops (ops1 ++ ops2) w = run_ops ops2 (run_ops ops1 w).
Proof. unfold run_ops. apply fold_left_app. Qed.

Lemma flown_second_stage n r :
  currentStageStrategy r = Some Stage2Strategy ->
  currentStageStrategy (flown n r) = Some Stage2Strategy.
Proof.
  revert r; induction n as [|n IH]; intros r H; cbn [flown]; [done|].
  destruct (goes_on r); [apply IH|]; by apply stepped_second_stage.
Qed.

(** X1.  What a terminal status means, in every world a client can reach:
    a rocket in ORBIT_ACHIEVED is at 160 km or more with fuel 5 or more,
    at stage counter 1 under the Stage 1 strategy; a rocket in
    MISSION_FAILED has fuel exactly 0. *)
Theorem terminal_status_meaning (h : Logger) (rnd : nat -> Q) (n : nat) (ops : list Op) :
  let w := run_ops ops (RocketSystem.new h rnd n) in
  (status (state (rocket w)) = ORBIT_ACHIEVED ->
   (160 <= altitude (state (rocket w)))%Q
   /\ (5 <= fuel (state (rocket w)))%Q
   /\ stage (state (rocket w)) = 1
   /\ currentStageStrategy (rocket w) = Some Stage1Strategy)
  /\ (status (state (rocket w)) = MISSION_FAILED -> fuel (state (rocket w)) = 0%Q).
Proof.
  intros w.
  destruct (run_ops_settled ops _ (new_settled h rnd n)) as (_ & H2 & H3 & _).
  destruct (run_ops_sound ops _ (new_sound h rnd n)) as (Hst & _).
  fold w in H2, H3, Hst. split; [|exact H3].
  intros Ho. destruct (H2 Ho) as ((Ha & Hf) & Hs).
  repeat split; try done.
  destruct Hst as [(_ & H)|[(H1 & _)|(_ & H)]]; [congruence|done|congruence].
Qed.

Lemma terminal_status_meaning_witness :
  status (state (rocket world_in_orbit)) = ORBIT_ACHIEVED
  /\ (160 <= altitude (state (rocket world_in_orbit)))%Q
  /\ (5 <= fuel (state (rocket world_in_orbit)))%Q.
Proof.
  assert (status (state (rocket world_in_orbit)) = ORBIT_ACHIEVED) as H
    by (rewrite world_in_orbit_state; reflexivity).
  split; [exact H|].
  pose proof (terminal_status_meaning [] (fun _ => 1 # 2)%Q 0 trace_in_orbit) as T.
  cbv zeta in T. rewrite <- world_in_orbit_trace in T.
  destruct T as [Ho _]. destruct (Ho H) as (Ha & Hf & _). exact (conj Ha Hf).
Defined.

(** X2.  The second stage never reaches orbit.  In every world a client
    can reach, the Stage 2 strategy is in force only with fuel below 5,
    under the fuel the orbit test asks for: whatever [advanceTime] is
    called with, the strategy stays Stage 2 and the status does not become
    ORBIT_ACHIEVED. *)
Theorem second_stage_never_orbits
    (h : Logger) (rnd : nat -> Q) (n : nat) (ops : list Op) (seconds : Z) :
  let w := run_ops ops (RocketSystem.new h rnd n) in
  let w' := snd (RocketSystem.advanceTime seconds w) in
  currentStageStrategy (rocket w) = Some Stage2Strategy ->
  (fuel (state (rocket w)) < 5)%Q
  /\ stage (state (rocket w)) = 2
  /\ currentStageStrategy (rocket w') = Some Stage2Strategy
  /\ status (state (rocket w')) <> ORBIT_ACHIEVED.
Proof.
  intros w w' Hs.
  destruct (run_ops_settled ops _ (new_settled h rnd n)) as (_ & _ & _ & _ & H5).
  destruct (run_ops_sound ops _ (new_sound h rnd n)) as (Hst & _).
  fold w in H5, Hst.
  assert (currentStageStrategy (rocket w') = Some Stage2Strategy) as Hs'.
  { subst w'. destruct (advanceTime_rocket seconds w) as [k ->].
    by apply flown_second_stage. }
  split; [by apply H5|]. split.
  { destruct Hst as [(_ & H)|[(_ & H)|(H2 & _)]]; [congruence|congruence|done]. }
  split; [exact Hs'|].
  intros Ho.
  assert (settled (rocket w')) as (_ & H2 & _).
  { subst w' w. change (RocketSystem.advanceTime seconds) with (call (AdvanceTime seconds)).
    apply call_settled, run_ops_settled, new_settled. }
  destruct (H2 Ho) as (_ & Hs1). congruence.
Qed.

Lemma second_stage_never_orbits_witness :
  currentStageStrategy (rocket world_running_dry) = Some Stage2Strategy
  /\ (fuel (state (rocket world_running_dry)) < 5)%Q
  /\ status (state (rocket (snd (RocketSystem.advanceTime 100 world_running_dry))))
     <> ORBIT_ACHIEVED.
Proof.
  assert (currentStageStrategy (rocket world_running_dry) = Some Stage2Strategy) as H
    by apply world_running_dry_state.
  split; [exact H|].
  pose proof (second_stage_never_orbits [] (fun _ => 1 # 2)%Q 0 trace_running_dry 100) as T.
  cbv zeta in T. rewrite <- world_running_dry_trace in T.
  destruct (T H) as (Hf & _ & _ & Ho). exact (conj Hf Ho).
Defined.

(* ===================================================================== *)
(** ** More on rocketSystem.ts: how long a flight lasts, how calls add up *)
(* ===================================================================== *)

Lemma flown_keeps_observers n r : observers (flown n r) = observers r.
Proof.
  revert r; induction n as [|n IH]; intros r; cbn [flown]; [done|].
  destruct (goes_on r); [rewrite IH|]; apply stepped_observers.
Qed.




Lemma flown_plus_landed n m r :
  status (state r) = IN_FLIGHT ->
  status (state (flown n r)) <> IN_FLIGHT ->
  flown (n + m) r = flown n r.
Proof.
  revert r; induction n as [|n IH]; intros r Hfl Hn; [done|].
  cbn [Nat.add flown] in *. destruct (goes_on r) eqn:G; [|done].
  apply IH; [by rewrite goes_on_status|done].
Qed.

Lemma goes_on_burn r :
  goes_on r = true ->
  (fuel (state (stepped r)) * 2 <= fuel (state r) * 2 - 1)%Q.
Proof. intros H. step_cases r; try discriminate; tests; lra. Qed.

Lemma goes_on_fuel r : goes_on r = true -> (0 < fuel (state r))%Q.
Proof.
  unfold goes_on. destruct (currentStageStrategy r) as [[]|]; try discriminate;
    cbn [getFuelConsumptionRate]; intros H; tests; lra.
Qed.

Lemma flown_lands n :
  forall r k,
    currentStageStrategy r <> None ->
    (fuel (state r) * 2 <= inject_Z (Z.of_nat n))%Q ->
    (n < k)%nat ->
    terminal (status (state (flown k r))).
Proof.
  induction n as [|n IH]; intros r k Hs Hf Hk;
    (destruct k as [|k]; [lia|]); cbn [flown];
    destruct (goes_on r) eqn:G.
  - apply goes_on_fuel in G. change (inject_Z (Z.of_nat 0)) with 0%Q in Hf. lra.
  - destruct (halt_cases r G) as [(H & _)|H]; [done|exact H].
  - apply IH; [by apply stepped_strategy_some| |lia].
    apply goes_on_burn in G.
    rewrite Nat2Z.inj_succ in Hf. unfold Z.succ in Hf. rewrite inject_Z_plus in Hf.
    change (inject_Z 1) with 1%Q in Hf. lra.
  - destruct (halt_cases r G) as [(H & _)|H]; [done|exact H].
Qed.

(** X3.  A flight ends.  From every in-flight world a client can reach,
    with observers that do not throw, [advanceTime] called with 201
    seconds or more returns normally and leaves the rocket in
    ORBIT_ACHIEVED or MISSION_FAILED, and every such call leaves the same
    rocket. *)
Theorem flight_ends
    (h : Logger) (rnd : nat -> Q) (n : nat) (ops : list Op) (seconds : Z) :
  let w := run_ops ops (RocketSystem.new h rnd n) in
  status (state (rocket w)) = IN_FLIGHT ->
  Forall quiet (observers (rocket w)) ->
  201 <= seconds ->
  fst (RocketSystem.advanceTime seconds w) = Ok tt
  /\ terminal (status (state (rocket (snd (RocketSystem.advanceTime seconds w)))))
  /\ rocket (snd (RocketSystem.advanceTime seconds w))
     = rocket (snd (RocketSystem.advanceTime 201 w)).
Proof.
  intros w Hfl HQ Hsec.
  destruct (run_ops_sound ops _ (new_sound h rnd n)) as (Hst & Hr & _).
  destruct (run_ops_settled ops _ (new_settled h rnd n)) as (H1 & _).
  fold w in Hst, Hr, H1. specialize (H1 Hfl).
  assert (forall k, (200 < k)%nat -> terminal (status (state (flown k (rocket w))))) as Hland.
  { intros k Hk. apply (flown_lands 200); [exact H1| |exact Hk].
    unfold in_range in Hr. change (inject_Z (Z.of_nat 200)) with 200%Q. lra. }
  destruct (advanceTime_flying seconds w Hfl) as (r & h1 & k & E & _ & Hq).
  destruct (Hq HQ Hst) as [-> ->]. rewrite E. cbn [fst snd rocket].
  destruct (advanceTime_flying 201 w Hfl) as (r' & h2 & k' & E' & _ & Hq').
  destruct (Hq' HQ Hst) as [-> ->]. rewrite E'. cbn [snd rocket].
  split; [done|]. split; [apply Hland; lia|].
  replace (Z.to_nat seconds) with (Z.to_nat 201 + (Z.to_nat seconds - Z.to_nat 201))%nat by lia.
  apply flown_plus_landed; [exact Hfl|].
  intros Hc. destruct (Hland (Z.to_nat 201)) as [Ht|Ht]; [lia|congruence|congruence].
Qed.

Lemma flight_ends_witness :
  status (state (rocket world_before_separation)) = IN_FLIGHT
  /\ Forall quiet (observers (rocket world_before_separation))
  /\ fst (RocketSystem.advanceTime 500 world_before_separation) = Ok tt
  /\ terminal (status (state (rocket (snd (RocketSystem.advanceTime 500
                                             world_before_separation))))).
Proof.
  assert (status (state (rocket world_before_separation)) = IN_FLIGHT) as Hfl
    by (rewrite (proj1 world_before_separation_state); reflexivity).
  pose proof (proj1 (proj2 (proj2 sample_observers))) as HQ.
  split; [exact Hfl|]. split; [exact HQ|].
  pose proof (flight_ends [] (fun _ => 1 # 2)%Q 0 trace_before_separation 500) as T.
  cbv zeta in T. rewrite <- world_before_separation_trace in T.
  assert (201 <= 500) as Hs by lia.
  destruct (T Hfl HQ Hs) as (H1 & H2 & _). exact (conj H1 H2).
Defined.



(* ===================================================================== *)
(** ** More on rocketSystem.ts: the pre-launch checks *)
(* ===================================================================== *)

(** What the checks log for one system, given the number drawn for it. *)
Definition check_entries (system : string) (r : Q) : Logger :=
  (if Qlt_bool r (1 # 10) then
     [(WARN, system +:+ ": Transient error detected. Retrying...");
      (INFO, system +:+ ": Retry successful.")]
   else [])
  ++ [(INFO, system +:+ ": OK")].

(** X5.  The pre-launch checks cannot fail.  Whatever the five numbers
    drawn, [performPreLaunchChecks] ends with the status READY_TO_LAUNCH,
    every other field of the rocket as it was and exactly five numbers
    drawn, and it returns normally when no observer throws.  With no
    observer registered it logs the opening line, for each system in turn
    the warning and the retry line when its number is below 1/10 and then
    its OK line, and the closing line. *)
Theorem performPreLaunchChecks_contract (w : World) :
  let w' := snd (RocketSystem.performPreLaunchChecks w) in
  status (state (rocket w')) = READY_TO_LAUNCH
  /\ stage (state (rocket w')) = stage (state (rocket w))
  /\ fuel (state (rocket w')) = fuel (state (rocket w))
  /\ altitude (state (rocket w')) = altitude (state (rocket w))
  /\ speed (state (rocket w')) = speed (state (rocket w))
  /\ currentStageStrategy (rocket w') = currentStageStrategy (rocket w)
  /\ observers (rocket w') = observers (rocket w)
  /\ random w' = random w
  /\ drawn w' = (5 + drawn w)%nat
  /\ (Forall quiet (observers (rocket w)) ->
      fst (RocketSystem.performPreLaunchChecks w) = Ok tt)
  /\ (observers (rocket w) = [] ->
      logger w'
      = logger w
        ++ [(INFO, "Initiating pre-launch system checks...")]
        ++ check_entries "Flight computer" (random w (drawn w))
        ++ check_entries "Navigation system" (random w (1 + drawn w)%nat)
        ++ check_entries "Fuel tanks" (random w (2 + drawn w)%nat)
        ++ check_entries "Engine systems" (random w (3 + drawn w)%nat)
        ++ check_entries "Communication array" (random w (4 + drawn w)%nat)
        ++ [(INFO, "All systems are 'Go' for launch.")]).
Proof.
  intros w'. subst w'.
  destruct (checks_spec w) as (r & h & E & Q).
  do 10 (split; [by rewrite E|]).
  clear. intros Hobs.
  destruct w as [[s o obs] h rnd d]. cbn [rocket observers] in Hobs. subst obs.
  unfold RocketSystem.performPreLaunchChecks, RocketSystem.systemChecks,
    RocketSystem.notifyObservers, Math_random, check_entries, info, warn.
  cbn [forEach Nat.add]. run.
  destruct (Qlt_bool (rnd d) (1 # 10)); run;
    destruct (Qlt_bool (rnd (S d)) (1 # 10)); run;
    destruct (Qlt_bool (rnd (S (S d))) (1 # 10)); run;
    destruct (Qlt_bool (rnd (S (S (S d)))) (1 # 10)); run;
    destruct (Qlt_bool (rnd (S (S (S (S d))))) (1 # 10)); run;
    cbn [forEach ret snd logger]; rewrite <- ?app_assoc; reflexivity.
Qed.

(* ===================================================================== *)
(** ** More on commands.ts: the three commands through the invoker *)
(* ===================================================================== *)

(** [executeCommand] by cases on the guard and on what [execute] does. *)
Lemma executeCommand_eq this command s l :
  arrays s !! commandHistory this = Some l ->
  (forall w1,
      canExecute command (world s) = (Ok false, w1) ->
      fst (CommandInvoker.executeCommand this command s)
      = Throw (InvalidStateException ("Cannot execute command: " +:+ getDescription command))
      /\ arrays (snd (CommandInvoker.executeCommand this command s)) = arrays s
      /\ rocket (world (snd (CommandInvoker.executeCommand this command s))) = rocket w1)
  /\ (forall w1 w2,
        canExecute command (world s) = (Ok true, w1) ->
        execute command (snd (info ("Executing: " +:+ getDescription command) w1))
        = (Ok tt, w2) ->
        CommandInvoker.executeCommand this command s
        = (Ok tt, mkMachine w2 (<[commandHistory this := l ++ [command]]> (arrays s))))
  /\ (forall w1 w2 e,
        canExecute command (world s) = (Ok true, w1) ->
        execute command (snd (info ("Executing: " +:+ getDescription command) w1))
        = (Throw e, w2) ->
        fst (CommandInvoker.executeCommand this command s) = Throw e
        /\ arrays (snd (CommandInvoker.executeCommand this command s)) = arrays s
        /\ rocket (world (snd (CommandInvoker.executeCommand this command s))) = rocket w2)
  /\ (forall w1 e,
        canExecute command (world s) = (Throw e, w1) ->
        fst (CommandInvoker.executeCommand this command s) = Throw e
        /\ arrays (snd (CommandInvoker.executeCommand this command s)) = arrays s
        /\ rocket (world (snd (CommandInvoker.executeCommand this command s))) = rocket w1).
Proof.
  intros Hl.
  split; [|split; [|split]].
  - intros w1 Hc.
    unfold CommandInvoker.executeCommand, try_catch, bind, in_world, throw, info, error,
      log, modify.
    rewrite Hc. cbn [negb instanceof_SimulatorException message fst snd world arrays].
    by repeat split.
  - intros w1 w2 Hc He.
    unfold CommandInvoker.executeCommand, try_catch, bind, in_world, throw, info, error,
      log, modify, array_push, array_read, array_write in *.
    rewrite Hc. cbn [negb fst snd world arrays] in *. rewrite He.
    unfold bind, modify. cbn [world arrays]. rewrite Hl. reflexivity.
  - intros w1 w2 e Hc He.
    unfold CommandInvoker.executeCommand, try_catch, bind, in_world, throw, info, error,
      log, modify in *.
    rewrite Hc. cbn [negb fst snd world arrays] in *. rewrite He.
    destruct (instanceof_SimulatorException e); cbn [fst snd world arrays rocket with_logger];
      by repeat split.
  - intros w1 e Hc.
    unfold CommandInvoker.executeCommand, try_catch, bind, in_world, throw, info, error,
      log, modify in *.
    rewrite Hc.
    destruct (instanceof_SimulatorException e); cbn [fst snd world arrays rocket with_logger];
      by repeat split.
Qed.

(** The commands the program builds. *)
Definition builtin (c : ICommand) : Prop :=
  c = StartChecksCommand \/ c = LaunchCommand \/ exists seconds, c = FastForwardCommand seconds.

Lemma builtin_guard c w :
  builtin c -> exists b, canExecute c w = (Ok b, w).
Proof. intros [-> |[-> |[seconds ->]]]; eexists; reflexivity. Qed.

(** The rocket after a command of the program ran, its guard being true:
    the transition of the state machine the command stands for. *)
Lemma builtin_execute c w w1 :
  builtin c ->
  canExecute c w = (Ok true, w) ->
  rocket w1 = rocket w ->
  exists r h d,
    execute c w1 = (r, mkWorld
      (match status (state (rocket w)) with
       | PRE_LAUNCH => checked (rocket w)
       | READY_TO_LAUNCH => launched (rocket w)
       | IN_FLIGHT => flown (d : nat) (rocket w)
       | _ => rocket w
       end) h (random w1) (match status (state (rocket w)) with
                           | PRE_LAUNCH => 5 + drawn w1
                           | _ => drawn w1
                           end)%nat)
    /\ (status (state (rocket w)) = PRE_LAUNCH
        \/ status (state (rocket w)) = READY_TO_LAUNCH
        \/ status (state (rocket w)) = IN_FLIGHT)
    /\ (Forall quiet (observers (rocket w)) -> staged (rocket w) -> r = Ok tt).
Proof.
  intros [-> |[-> |[seconds ->]]] Hc Hr;
    unfold canExecute, StartChecksCommand, LaunchCommand, FastForwardCommand,
      RocketSystem.getState, bind, gets, ret, clone in Hc; cbn [status] in Hc;
    injection Hc as Hc;
    cbn [execute StartChecksCommand LaunchCommand FastForwardCommand].
  - apply bool_decide_eq_true in Hc. rewrite Hc.
    destruct (checks_spec w1) as (r & h & E & Q). rewrite E, Hr.
    exists r, h, O. split; [done|]. split; [auto|]. intros HQ _. apply Q. by rewrite Hr.
  - apply bool_decide_eq_true in Hc. rewrite Hc.
    destruct (launch_ready w1) as (r & h & E & Q); [by rewrite Hr|]. rewrite E, Hr.
    exists r, h, O. split; [done|]. split; [auto|]. intros HQ _. apply Q. by rewrite Hr.
  - apply andb_true_iff in Hc. destruct Hc as [Hc _].
    apply bool_decide_eq_true in Hc. rewrite Hc.
    unfold bind at 1, info. rewrite log_eq.
    match goal with
    | |- context [RocketSystem.advanceTime seconds ?W] =>
        destruct (advanceTime_flying seconds W) as (r & h & k & E & _ & Q);
          [cbn [rocket with_logger]; by rewrite Hr|]
    end.
    rewrite E. cbn [rocket random drawn with_logger] in *. rewrite Hr in *.
    exists r, h, k. split; [done|]. split; [auto|].
    intros HQ Hs. by destruct (Q HQ Hs).
Qed.

(** X6.  A command of the program runs whole or not at all.  For an
    invoker whose history holds [l], a rocket whose stage counter and
    strategy agree, and observers that do not throw, [executeCommand] on
    one of the three commands either is refused (the invalid-state error
    naming its description, history and rocket untouched) or returns
    normally with the command appended to the history: it is never left
    half done. *)
Theorem builtin_command_whole_or_nothing
    (this : CommandInvoker) (c : ICommand) (s : Machine) (l : list ICommand) :
  builtin c ->
  arrays s !! commandHistory this = Some l ->
  staged (rocket (world s)) ->
  Forall quiet (observers (rocket (world s))) ->
  let out := CommandInvoker.executeCommand this c s in
  (fst (canExecute c (world s)) = Ok false
   /\ fst out = Throw (InvalidStateException ("Cannot execute command: " +:+ getDescription c))
   /\ arrays (snd out) = arrays s
   /\ rocket (world (snd out)) = rocket (world s))
  \/ (fst (canExecute c (world s)) = Ok true
      /\ fst out = Ok tt
      /\ arrays (snd out) = <[commandHistory this := l ++ [c]]> (arrays s)).
Proof.
  intros Hb Hl Hst HQ out.
  destruct (builtin_guard c (world s) Hb) as [b Hc].
  destruct (executeCommand_eq this c s l Hl) as (Hfalse & Htrue & _).
  destruct b.
  - right. rewrite Hc. split; [done|].
    destruct (builtin_execute c (world s)
                (snd (info ("Executing: " +:+ getDescription c) (world s))) Hb Hc eq_refl)
      as (r & h & d & E & _ & Hr).
    specialize (Hr HQ Hst). subst r.
    subst out. rewrite (Htrue _ _ Hc E). by split.
  - left. rewrite Hc. split; [done|].
    destruct (Hfalse _ Hc) as (H1 & H2 & H3). by repeat split.
Qed.

Lemma builtin_command_whole_or_nothing_witness :
  let this := mkCommandInvoker 1 in
  (builtin LaunchCommand
   /\ arrays machine_start !! commandHistory this = Some []
   /\ staged (rocket (world machine_start))
   /\ Forall quiet (observers (rocket (world machine_start))))
  /\ fst (CommandInvoker.executeCommand this LaunchCommand machine_start)
     = Throw (InvalidStateException "Cannot execute command: Launch the rocket")
  /\ fst (CommandInvoker.executeCommand this StartChecksCommand machine_start) = Ok tt.
Proof.
  intros this.
  assert (builtin LaunchCommand) as Hb1 by (right; left; reflexivity).
  assert (builtin StartChecksCommand) as Hb2 by (left; reflexivity).
  assert (arrays machine_start !! commandHistory this = Some []) as Hl by reflexivity.
  assert (staged (rocket (world machine_start))) as Hst by (left; split; reflexivity).
  assert (Forall quiet (observers (rocket (world machine_start)))) as HQ
    by (repeat constructor; apply ConsoleDisplay_quiet).
  split; [exact (conj Hb1 (conj Hl (conj Hst HQ)))|].
  split.
  - destruct (builtin_command_whole_or_nothing this LaunchCommand machine_start []
                Hb1 Hl Hst HQ) as [(_ & H & _)|(H & _)]; [exact H|discriminate H].
  - destruct (builtin_command_whole_or_nothing this StartChecksCommand machine_start []
                Hb2 Hl Hst HQ) as [(H & _)|(_ & H & _)]; [discriminate H|exact H].
Defined.

(* ===================================================================== *)
(** ** index.ts: the simulator *)
(* ===================================================================== *)

From Stdlib Require Import Ascii.

(** The built-ins of JavaScript that [processInput] calls and that are
    taken as given: [String.prototype.trim], [String.prototype.toLowerCase]
    and [parseInt], whose result is [None] for [NaN] and the whole number
    parsed otherwise.  What is proved of [processInput] holds for every
    choice of them. *)
Class JsBuiltins : Type := {
  String_trim : string -> string;
  String_toLowerCase : string -> string;
  parseInt : string -> Z -> option Z
}.

(** [s.startsWith(p)] *)
Definition String_startsWith (s p : string) : bool := String.prefix p s.

(** [s.split(c)] for a separator of one character: the pieces between its
    occurrences, empty ones too. *)
Fixpoint String_split (s : string) (c : ascii) : list string :=
  match s with
  | EmptyString => [EmptyString]
  | String a s' =>
      if Ascii.eqb a c then EmptyString :: String_split s' c
      else
        match String_split s' c with
        | piece :: pieces => String a piece :: pieces
        | [] => [String a EmptyString]
        end
  end.

(** The line feed of the literals of [displayStatus] and [displayHelp]. *)
Definition LF : string := String "010"%char EmptyString.

(** The process around the simulator: the machine, and the lines written
    by [console.log] itself (what goes through the logger is in the
    logger). *)
Record Terminal : Type := mkTerminal {
  machine : Machine;
  console : list string
}.

Definition in_machine {A} (m : M Machine A) : M Terminal A :=
  fun t => let (r, s) := m (machine t) in (r, mkTerminal s (console t)).

(** [console.log(line)] *)
Definition console_log (line : string) : M Terminal unit :=
  modify (fun t => mkTerminal (machine t) (console t ++ [line])).

(** The fields of a [RocketLaunchSimulator] that are not in the world:
    its rocket system, logger and display are those of the world. *)
Record RocketLaunchSimulator : Type := mkRocketLaunchSimulator {
  commandInvoker : CommandInvoker
}.

Module RocketLaunchSimulator.

(** [new RocketLaunchSimulator()]: a new rocket system takes the place of
    the one the world had, on the logger the world has. *)
Definition new : M Terminal RocketLaunchSimulator :=
  in_machine (in_world (modify (with_rocket (fun _ =>
    mkRocketSystem new_RocketState None [])))) ;;
  let* invoker := in_machine CommandInvoker.new in
  in_machine (in_world (RocketSystem.addObserver ConsoleDisplay)) ;;
  ret (mkRocketLaunchSimulator invoker).

Definition displayStatus : M Terminal unit :=
  let* state := in_machine (in_world RocketSystem.getState) in
  console_log (LF +:+ "=== MISSION STATUS ===") ;;
  console_log ("Status: " +:+ MissionStatus_value (status state)) ;;
  console_log ("Stage: " +:+ Number_toString (stage state)) ;;
  console_log ("Fuel: " +:+ toFixed1 (fuel state) +:+ "%") ;;
  console_log ("Altitude: " +:+ toFixed1 (altitude state) +:+ " km") ;;
  console_log ("Speed: " +:+ toFixed1 (speed state) +:+ " km/h") ;;
  console_log ("=====================" +:+ LF).

Definition displayHelp : M Terminal unit :=
  console_log (LF +:+ "=== AVAILABLE COMMANDS ===") ;;
  console_log "start_checks    - Initiate pre-launch system checks" ;;
  console_log "launch          - Launch the rocket (after checks)" ;;
  console_log "fast_forward X  - Advance simulation by X seconds" ;;
  console_log "status          - Display current mission status" ;;
  console_log "help            - Show this help message" ;;
  console_log "exit            - Exit the simulator" ;;
  console_log ("=========================" +:+ LF).

Definition processInput `{JsBuiltins} (this : RocketLaunchSimulator) (input : string)
  : M Terminal unit :=
  try_catch
    (let trimmedInput := String_toLowerCase (String_trim input) in
     if bool_decide (trimmedInput = "start_checks") then
       in_machine (CommandInvoker.executeCommand (commandInvoker this) StartChecksCommand)
     else if bool_decide (trimmedInput = "launch") then
       in_machine (CommandInvoker.executeCommand (commandInvoker this) LaunchCommand)
     else if String_startsWith trimmedInput "fast_forward" then
       let parts := String_split trimmedInput " "%char in
       match parts with
       | [_; argument] =>
           (* isNaN(seconds) || seconds <= 0 *)
           match parseInt argument 10 with
           | Some seconds =>
               if seconds <=? 0 then
                 throw (SimulatorException "Fast forward value must be a positive number")
               else
                 in_machine (CommandInvoker.executeCommand (commandInvoker this)
                               (FastForwardCommand seconds))
           | None =>
               throw (SimulatorException "Fast forward value must be a positive number")
           end
       | _ => (* parts.length !== 2 *)
           throw (InvalidCommandException input)
       end
     else if bool_decide (trimmedInput = "status") then
       displayStatus
     else if bool_decide (trimmedInput = "help") then
       displayHelp
     else
       throw (InvalidCommandException input))
    (fun e =>
       if instanceof_SimulatorException e then
         in_machine (in_world (error (message e)))
       else
         in_machine (in_world (error "An unexpected error occurred"))).

End RocketLaunchSimulator.

(** The terminal after the simulator was given the lines in turn. *)
Definition run_inputs `{JsBuiltins} (this : RocketLaunchSimulator) (inputs : list string)
    (t : Terminal) : Terminal :=
  fold_left (fun t input => snd (RocketLaunchSimulator.processInput this input t)) inputs t.

(** The built-ins on text of the ASCII letters, digits and blanks, for the
    sample sessions below. *)
Definition ascii_blank (a : ascii) : bool :=
  let n := nat_of_ascii a in ((9 <=? n) && (n <=? 13) || (n =? 32))%nat.

Fixpoint drop_blanks (s : string) : string :=
  match s with
  | String a s' => if ascii_blank a then drop_blanks s' else s
  | EmptyString => EmptyString
  end.

Fixpoint lower (s : string) : string :=
  match s with
  | String a s' =>
      let n := nat_of_ascii a in
      String (if ((65 <=? n) && (n <=? 90))%nat then ascii_of_nat (n + 32) else a) (lower s')
  | EmptyString => EmptyString
  end.

Fixpoint digits (s : string) (acc : option Z) : option Z :=
  match s with
  | String a s' =>
      let n := nat_of_ascii a in
      if ((48 <=? n) && (n <=? 57))%nat then
        digits s' (Some (10 * default 0 acc + Z.of_nat (n - 48)))
      else acc
  | EmptyString => acc
  end.

#[local] Instance sample_builtins : JsBuiltins := {
  String_trim s := String.rev (drop_blanks (String.rev (drop_blanks s)));
  String_toLowerCase := lower;
  parseInt s _ :=
    match drop_blanks s with
    | String "-"%char s' => Z.opp <$> digits s' None
    | String "+"%char s' => digits s' None
    | s' => digits s' None
    end
}.

(* ===================================================================== *)
(** ** index.ts: one line of input *)
(* ===================================================================== *)

(** The edge of the state machine a command of the program takes from the
    status its guard asks for ([d] update steps for a fast forward). *)
Definition transition (r : RocketSystem) (d : nat) : RocketSystem :=
  match status (state r) with
  | PRE_LAUNCH => checked r
  | READY_TO_LAUNCH => launched r
  | IN_FLIGHT => flown d r
  | _ => r
  end.

Lemma builtin_guard_status c w :
  builtin c ->
  fst (canExecute c w) = Ok true ->
  status (state (rocket w)) = PRE_LAUNCH
  \/ status (state (rocket w)) = READY_TO_LAUNCH
  \/ status (state (rocket w)) = IN_FLIGHT.
Proof.
  intros Hb Hc. destruct (builtin_guard c w Hb) as [b E]. rewrite E in Hc.
  injection Hc as ->.
  by destruct (builtin_execute c w w Hb E eq_refl) as (_ & _ & _ & _ & H & _).
Qed.

(** What [executeCommand] on a command of the program does to the rocket
    and to the arrays, whether or not the history is there and whatever
    the observers do. *)
Lemma executeCommand_builtin this c s :
  builtin c ->
  let out := CommandInvoker.executeCommand this c s in
  (fst (canExecute c (world s)) = Ok false
   /\ fst out = Throw (InvalidStateException ("Cannot execute command: " +:+ getDescription c))
   /\ world (snd out)
      = with_logger
          (fun h => h ++ [(ERROR, "Cannot execute command: " +:+ getDescription c)]) (world s)
   /\ arrays (snd out) = arrays s)
  \/ (fst (canExecute c (world s)) = Ok true
      /\ (exists d, rocket (world (snd out)) = transition (rocket (world s)) d)
      /\ (arrays (snd out) = arrays s
          \/ exists l, arrays s !! commandHistory this = Some l
                       /\ fst out = Ok tt
                       /\ arrays (snd out)
                          = <[commandHistory this := l ++ [c]]> (arrays s))).
Proof.
  intros Hb out. subst out.
  destruct (builtin_guard c (world s) Hb) as [[] Hc]; [right|left]; rewrite Hc.
  - split; [done|].
    destruct (builtin_execute c (world s)
                (snd (info ("Executing: " +:+ getDescription c) (world s))) Hb Hc eq_refl)
      as (r & h & d & E & _ & _).
    unfold info in E. rewrite log_eq in E. cbn [snd] in E.
    unfold CommandInvoker.executeCommand, try_catch, bind, in_world, throw, info, error,
      log, modify, array_push, array_read, array_write.
    rewrite Hc. cbn [negb fst snd world arrays]. rewrite E.
    unfold bind, modify. cbn [world arrays random drawn rocket with_logger].
    assert (forall x, match status (state (rocket (world s))) with
                      | PRE_LAUNCH => checked (rocket (world s))
                      | READY_TO_LAUNCH => launched (rocket (world s))
                      | IN_FLIGHT => flown d (rocket (world s))
                      | _ => rocket (world s)
                      end = x -> exists d, x = transition (rocket (world s)) d) as Ht.
    { intros x <-. by exists d. }
    destruct r as [[]|e].
    + destruct (arrays s !! commandHistory this) as [l|] eqn:Hl;
        cbn [fst snd world arrays rocket with_logger instanceof_SimulatorException].
      * split; [by apply Ht|]. right. by exists l.
      * split; [by apply Ht|]. by left.
    + destruct (instanceof_SimulatorException e);
        cbn [fst snd world arrays rocket with_logger];
        (split; [by apply Ht|by left]).
  - unfold CommandInvoker.executeCommand, try_catch, bind, in_world, throw, info, error,
      log, modify.
    rewrite Hc. cbn [negb instanceof_SimulatorException message fst snd world arrays].
    by repeat split.
Qed.

Lemma in_machine_eq {A} (m : M Machine A) t :
  in_machine m t = (fst (m (machine t)), mkTerminal (snd (m (machine t))) (console t)).
Proof. unfold in_machine. by destruct (m (machine t)). Qed.

(** How a terminal may differ from another after a line of input was
    handled: by the rocket having taken an edge of the state machine, by
    one command more in the history, and by what was logged and printed. *)
Definition input_handled (this : RocketLaunchSimulator) (t t' : Terminal) : Prop :=
  ((rocket (world (machine t')) = rocket (world (machine t))
    /\ arrays (machine t') = arrays (machine t))
   \/ exists c d,
        builtin c
        /\ fst (canExecute c (world (machine t))) = Ok true
        /\ rocket (world (machine t')) = transition (rocket (world (machine t))) d
        /\ (arrays (machine t') = arrays (machine t)
            \/ exists l, arrays (machine t) !! commandHistory (commandInvoker this) = Some l
                         /\ arrays (machine t')
                            = <[commandHistory (commandInvoker this) := l ++ [c]]>
                                (arrays (machine t)))).

(** The catch of [processInput]: it logs and returns. *)
Lemma caught_eq (r : result unit) (t : Terminal) :
  exists h,
    (match r with
     | Ok a => (Ok a, t)
     | Throw e =>
         (if instanceof_SimulatorException e then
            in_machine (in_world (error (message e)))
          else
            in_machine (in_world (error "An unexpected error occurred"))) t
     end)
    = (Ok tt, mkTerminal
                (mkMachine (with_logger (fun _ => h) (world (machine t))) (arrays (machine t)))
                (console t)).
Proof.
  destruct r as [[]|e].
  - exists (logger (world (machine t))). by destruct t as [[[] ?] ?].
  - destruct (instanceof_SimulatorException e); eexists; reflexivity.
Qed.

Section ProcessInput.

Context `{JsBuiltins}.

Lemma command_handled this c t :
  builtin c ->
  input_handled this t
    (snd (in_machine (CommandInvoker.executeCommand (commandInvoker this) c) t)).
Proof.
  intros Hb. unfold input_handled. rewrite in_machine_eq. cbn [snd machine].
  destruct (executeCommand_builtin (commandInvoker this) c (machine t) Hb)
    as [(_ & _ & Hw & Ha)|(Hc & [d Hd] & Ha)].
  - left. rewrite Hw. by split.
  - right. exists c, d. repeat split; try done.
    destruct Ha as [Ha|(l & Hl & _ & Ha)]; [by left|right; by exists l].
Qed.

Lemma processInput_spec this input t :
  fst (RocketLaunchSimulator.processInput this input t) = Ok tt
  /\ input_handled this t (snd (RocketLaunchSimulator.processInput this input t)).
Proof.
  unfold RocketLaunchSimulator.processInput, try_catch.
  set (trimmedInput := String_toLowerCase (String_trim input)).
  assert (forall (body : M Terminal unit),
            input_handled this t (snd (body t)) ->
            fst (let (r, t') := body t in
                 match r with
                 | Ok a => (Ok a, t')
                 | Throw e =>
                     (if instanceof_SimulatorException e then
                        in_machine (in_world (error (message e)))
                      else
                        in_machine (in_world (error "An unexpected error occurred"))) t'
                 end) = Ok tt
            /\ input_handled this t
                 (snd (let (r, t') := body t in
                       match r with
                       | Ok a => (Ok a, t')
                       | Throw e =>
                           (if instanceof_SimulatorException e then
                              in_machine (in_world (error (message e)))
                            else
                              in_machine (in_world (error "An unexpected error occurred"))) t'
                       end))) as Hcatch.
  { intros body Hbody. destruct (body t) as [r t'] eqn:E. cbn [snd] in Hbody.
    destruct (caught_eq r t') as [h ->]. split; [done|]. cbn [snd].
    destruct Hbody as [(Hr & Ha)|(c & d & Hb & Hc & Hr & Ha)].
    - left. by split.
    - right. by exists c, d. }
  assert (forall e, input_handled this t (snd (@throw Terminal unit e t))) as Hthrow.
  { intros e. left. by split. }
  apply Hcatch.
  repeat case_match; try apply Hthrow;
    try (apply command_handled; unfold builtin; eauto).
  - left. by split.
  - left. by split.
Qed.

End ProcessInput.

(* ===================================================================== *)
(** ** index.ts: sample sessions *)
(* ===================================================================== *)

Definition terminal_empty : Terminal :=
  mkTerminal (mkMachine (RocketSystem.new [] (fun _ => 1 # 2)%Q 0) ∅) [].

(** A new simulator in an empty process. *)
Definition sample_simulator : RocketLaunchSimulator :=
  match fst (RocketLaunchSimulator.new terminal_empty) with
  | Ok this => this
  | Throw _ => mkRocketLaunchSimulator (mkCommandInvoker 1)
  end.

Definition terminal_new : Terminal := snd (RocketLaunchSimulator.new terminal_empty).

(** After the lines of the demonstration, the rocket in flight. *)
Definition terminal_flying : Terminal :=
  run_inputs sample_simulator [" START_CHECKS "; "launch"; "fast_forward 10"]%string
    terminal_new.

(** After one more line, the rocket in orbit. *)
Definition terminal_in_orbit : Terminal :=
  run_inputs sample_simulator ["fast_forward 50"]%string terminal_flying.

Example sample_simulator_eq :
  RocketLaunchSimulator.new terminal_empty = (Ok sample_simulator, terminal_new)
  /\ arrays (machine terminal_new) !! commandHistory (commandInvoker sample_simulator)
     = Some [].
Proof. vm_compute. split; reflexivity. Qed.

Example terminal_flying_state :
  state (rocket (world (machine terminal_flying)))
  = mkRocketState 1 90 100 10000 IN_FLIGHT
  /\ (map getDescription
        <$> arrays (machine terminal_flying) !! commandHistory (commandInvoker sample_simulator))
     = Some [ "Start pre-launch system checks"; "Launch the rocket";
              "Fast forward 10 seconds" ]%string.
Proof. vm_compute. split; reflexivity. Qed.

Example terminal_in_orbit_state :
  state (rocket (world (machine terminal_in_orbit)))
  = mkRocketState 1 84 160 16000 ORBIT_ACHIEVED.
Proof. vm_compute. reflexivity. Qed.

(* ===================================================================== *)
(** ** index.ts: what a line of input can do *)
(* ===================================================================== *)

(** X7.  [processInput] never throws: whatever the line, the built-ins,
    the state of the rocket and the observers, every error raised on the
    way is caught and logged, and the call returns normally. *)
Theorem processInput_never_throws
    (js : JsBuiltins) (this : RocketLaunchSimulator) (input : string) (t : Terminal) :
  fst (RocketLaunchSimulator.processInput this input t) = Ok tt.
Proof. apply processInput_spec. Qed.

(** X8.  A line of input moves the rocket along one edge of the state
    machine at most.  After [processInput] the observers are those
    registered before and the rocket is as it was, or it was in PRE_LAUNCH
    and only its status changed, to READY_TO_LAUNCH, or it was in
    READY_TO_LAUNCH and is now in flight at stage 1 under the Stage 1
    strategy with its other numbers unchanged, or it was IN_FLIGHT and
    went through some number of update steps. *)
Theorem processInput_edges
    (js : JsBuiltins) (this : RocketLaunchSimulator) (input : string) (t : Terminal) :
  let r := rocket (world (machine t)) in
  let r' := rocket (world (machine (snd (RocketLaunchSimulator.processInput this input t)))) in
  observers r' = observers r
  /\ (r' = r
      \/ (status (state r) = PRE_LAUNCH
          /\ state r' = set_status READY_TO_LAUNCH (state r)
          /\ currentStageStrategy r' = currentStageStrategy r)
      \/ (status (state r) = READY_TO_LAUNCH
          /\ state r' = set_status IN_FLIGHT (set_stage 1 (state r))
          /\ currentStageStrategy r' = Some Stage1Strategy)
      \/ (status (state r) = IN_FLIGHT /\ exists d, r' = flown d r)).
Proof.
  intros r r'. subst r r'.
  destruct (processInput_spec this input t) as [_ [(Hr & _)|(c & d & Hb & Hc & Hr & _)]].
  - rewrite Hr. split; [done|by left].
  - rewrite Hr. unfold transition.
    destruct (builtin_guard_status c _ Hb Hc) as [Hs|[Hs|Hs]]; rewrite Hs.
    + split; [done|]. right; left. by repeat split.
    + split; [done|]. right; right; left. by repeat split.
    + split; [apply flown_keeps_observers|]. right; right; right. split; [done|by exists d].
Qed.

(** X9.  Through the simulator the terminal states are terminal.  With
    the rocket in ORBIT_ACHIEVED or MISSION_FAILED, no line of input
    changes the rocket or any array of commands. *)
Theorem cli_terminal_states
    (js : JsBuiltins) (this : RocketLaunchSimulator) (input : string) (t : Terminal) :
  terminal (status (state (rocket (world (machine t))))) ->
  let t' := snd (RocketLaunchSimulator.processInput this input t) in
  rocket (world (machine t')) = rocket (world (machine t))
  /\ arrays (machine t') = arrays (machine t).
Proof.
  intros Ht t'. subst t'.
  destruct (processInput_spec this input t) as [_ [H|(c & d & Hb & Hc & _)]]; [exact H|].
  destruct (builtin_guard_status c _ Hb Hc) as [Hs|[Hs|Hs]];
    destruct Ht as [Ht|Ht]; congruence.
Qed.

Lemma cli_terminal_states_witness :
  terminal (status (state (rocket (world (machine terminal_in_orbit)))))
  /\ rocket (world (machine (snd (RocketLaunchSimulator.processInput sample_simulator
                                    "start_checks" terminal_in_orbit))))
     = rocket (world (machine terminal_in_orbit)).
Proof.
  assert (terminal (status (state (rocket (world (machine terminal_in_orbit)))))) as Ht
    by (rewrite terminal_in_orbit_state; by left).
  split; [exact Ht|].
  exact (proj1 (cli_terminal_states sample_builtins sample_simulator "start_checks"
                  terminal_in_orbit Ht)).
Defined.

(** X10.  A line of input adds one command to the history at most, and
    only a command of the program whose guard held; it writes no other
    array.  So the history only grows, in the order of the lines. *)
Theorem history_grows_by_commands
    (js : JsBuiltins) (this : RocketLaunchSimulator) (input : string) (t : Terminal)
    (l : list ICommand) :
  arrays (machine t) !! commandHistory (commandInvoker this) = Some l ->
  let t' := snd (RocketLaunchSimulator.processInput this input t) in
  (arrays (machine t') !! commandHistory (commandInvoker this) = Some l
   \/ exists c,
        builtin c
        /\ fst (canExecute c (world (machine t))) = Ok true
        /\ arrays (machine t') !! commandHistory (commandInvoker this) = Some (l ++ [c]))
  /\ (forall a, a <> commandHistory (commandInvoker this) ->
        arrays (machine t') !! a = arrays (machine t) !! a).
Proof.
  intros Hl t'. subst t'.
  destruct (processInput_spec this input t)
    as [_ [(_ & Ha)|(c & d & Hb & Hc & _ & [Ha|(l' & Hl' & Ha)])]]; rewrite Ha.
  - split; [by left|done].
  - split; [by left|done].
  - rewrite Hl in Hl'. injection Hl' as <-. split.
    + right. exists c. repeat split; try done. apply lookup_insert_eq.
    + intros a Hne. by rewrite lookup_insert_ne.
Qed.

Lemma history_grows_by_commands_witness :
  arrays (machine terminal_new) !! commandHistory (commandInvoker sample_simulator) = Some []
  /\ exists c,
       builtin c
       /\ arrays (machine (snd (RocketLaunchSimulator.processInput sample_simulator
                                  "start_checks" terminal_new)))
            !! commandHistory (commandInvoker sample_simulator)
          = Some ([] ++ [c]).
Proof.
  pose proof (proj2 sample_simulator_eq) as Hl.
  split; [exact Hl|].
  destruct (history_grows_by_commands sample_builtins sample_simulator "start_checks"
              terminal_new [] Hl) as [[H|(c & Hb & _ & H)] _].
  - exfalso. revert H. vm_compute. discriminate.
  - exists c. exact (conj Hb H).
Defined.

(* ===================================================================== *)
(** ** index.ts: the flights the simulator can make *)
(* ===================================================================== *)

(** The rockets the simulator can show: before and after the checks, in
    the first 15 seconds of a flight in the first stage, and in orbit as
    reached at second 16. *)
Definition nominal (r : RocketSystem) : Prop :=
  (state r = new_RocketState /\ currentStageStrategy r = None)
  \/ (state r = set_status READY_TO_LAUNCH new_RocketState /\ currentStageStrategy r = None)
  \/ (exists n : Z,
        0 <= n <= 15
        /\ stage (state r) = 1 /\ status (state r) = IN_FLIGHT
        /\ currentStageStrategy r = Some Stage1Strategy
        /\ (fuel (state r) == 100 - inject_Z n
            /\ altitude (state r) == 10 * inject_Z n
            /\ speed (state r) == 1000 * inject_Z n)%Q)
  \/ (stage (state r) = 1 /\ status (state r) = ORBIT_ACHIEVED
      /\ currentStageStrategy r = Some Stage1Strategy
      /\ (fuel (state r) == 84 /\ altitude (state r) == 160 /\ speed (state r) == 16000)%Q).

Lemma stepped_nominal r :
  nominal r -> status (state r) = IN_FLIGHT ->
  nominal (stepped r)
  /\ (goes_on r = true -> status (state (stepped r)) = IN_FLIGHT).
Proof.
  intros [(E & _)|[(E & _)|[(n & Hn & Hst & _ & Hs & Hf & Ha & Hv)|(_ & E & _)]]] Hfl;
    try (rewrite E in Hfl; discriminate); try congruence.
  split; [|intros G; by rewrite goes_on_status].
  destruct r as [s o obs]. cbn [state currentStageStrategy] in *. subst o.
  assert (0 <= inject_Z n)%Q as Hq0
    by (change 0%Q with (inject_Z 0); rewrite <- Zle_Qle; lia).
  unfold stepped.
  cbn [state currentStageStrategy observers
       getFuelConsumptionRate getAltitudeIncrement getSpeedIncrement shouldSeparate
       set_fuel set_altitude set_speed set_status set_stage
       fuel altitude speed stage status].
  destruct (decide (n = 15)) as [-> | Hne].
  - change (inject_Z 15) with 15%Q in *.
    destruct (Qle_bool (fuel s - 1) 0) eqn:E1; [tests; exfalso; lra|].
    destruct (Qge_bool (altitude s + 10) ORBIT_ALTITUDE
              && Qge_bool (fuel s - 1) MIN_FUEL_FOR_ORBIT) eqn:E2;
      [|tests; exfalso; lra].
    right; right; right. cbn. repeat split; try done; lra.
  - assert (inject_Z n <= 14)%Q as Hq14
      by (change 14%Q with (inject_Z 14); rewrite <- Zle_Qle; lia).
    destruct (Qle_bool (fuel s - 1) 0) eqn:E1; [tests; exfalso; lra|].
    destruct (Qge_bool (altitude s + 10) ORBIT_ALTITUDE
              && Qge_bool (fuel s - 1) MIN_FUEL_FOR_ORBIT) eqn:E2;
      [tests; exfalso; lra|].
    destruct (Qle_bool (fuel s - 1) 30) eqn:E3; [tests; exfalso; lra|].
    right; right; left. exists (n + 1). cbn.
    rewrite inject_Z_plus. change (inject_Z 1) with 1%Q.
    repeat split; try done; try lia; lra.
Qed.

Lemma flown_nominal d r :
  nominal r -> status (state r) = IN_FLIGHT -> nominal (flown d r).
Proof.
  revert r; induction d as [|d IH]; intros r Hn Hfl; cbn [flown]; [done|].
  destruct (stepped_nominal r Hn Hfl) as [Hn' Hfl'].
  destruct (goes_on r); [|done]. apply IH; auto.
Qed.

Lemma transition_nominal r d : nominal r -> nominal (transition r d).
Proof.
  intros Hn. unfold transition.
  destruct (status (state r)) eqn:Hs; try done.
  - destruct Hn as [(E & Hc)|[(E & _)|[(n & _ & _ & E & _)|(_ & E & _)]]];
      try (rewrite E in Hs; discriminate); try congruence.
    right; left. unfold checked; cbn. by rewrite E.
  - destruct Hn as [(E & _)|[(E & Hc)|[(n & _ & _ & E & _)|(_ & E & _)]]];
      try (rewrite E in Hs; discriminate); try congruence.
    right; right; left. exists 0. unfold launched; cbn. rewrite E; cbn.
    repeat split; try done; try lia; reflexivity.
  - by apply flown_nominal.
Qed.

Section Sessions.

Context `{JsBuiltins}.

Lemma run_inputs_nominal this inputs t :
  nominal (rocket (world (machine t))) ->
  nominal (rocket (world (machine (run_inputs this inputs t)))).
Proof.
  revert t; induction inputs as [|input inputs IH]; intros t Hn; [done|].
  cbn [run_inputs fold_left]. apply IH.
  destruct (processInput_spec this input t) as [_ [(Hr & _)|(c & d & _ & _ & Hr & _)]];
    rewrite Hr; [done|by apply transition_nominal].
Qed.

End Sessions.

(** What [new RocketLaunchSimulator()] sets up: a fresh rocket with the
    display as its only observer, and an invoker with an empty history in
    a new array; the arrays that were there, the logger and the console
    are as they were. *)
Lemma simulator_new_eq t0 :
  exists this t1,
    RocketLaunchSimulator.new t0 = (Ok this, t1)
    /\ rocket (world (machine t1)) = mkRocketSystem new_RocketState None [ConsoleDisplay]
    /\ arrays (machine t1) !! commandHistory (commandInvoker this) = Some []
    /\ arrays (machine t0) !! commandHistory (commandInvoker this) = None
    /\ (forall a, a <> commandHistory (commandInvoker this) ->
         arrays (machine t1) !! a = arrays (machine t0) !! a)
    /\ logger (world (machine t1)) = logger (world (machine t0))
    /\ console t1 = console t0.
Proof.
  eexists (mkRocketLaunchSimulator (mkCommandInvoker (fresh (dom (arrays (machine t0)))))), _.
  split; [reflexivity|].
  cbn [snd machine world arrays rocket logger console with_observers with_rocket
       observers state currentStageStrategy commandInvoker commandHistory app].
  repeat split.
  - apply lookup_insert_eq.
  - apply not_elem_of_dom, is_fresh.
  - intros a Hne. by rewrite lookup_insert_ne.
Qed.

(** X11.  What the simulator can make of a flight.  A new simulator,
    whatever lines it is then given, keeps its rocket at stage 0 or 1 with
    fuel between 84 and 100: in flight it is [n] seconds into the first
    stage for some [n] up to 15, with fuel [100 - n], altitude [10 n] and
    speed [1000 n]; in orbit it has fuel 84, altitude 160 and speed
    16000.  The mission never fails and the second stage is never
    installed. *)
Theorem cli_flight_is_nominal (js : JsBuiltins) (t0 : Terminal) (inputs : list string) :
  exists this t1,
    RocketLaunchSimulator.new t0 = (Ok this, t1)
    /\ let s := state (rocket (world (machine (run_inputs this inputs t1)))) in
       let strategy :=
         currentStageStrategy (rocket (world (machine (run_inputs this inputs t1)))) in
       0 <= stage s <= 1
       /\ (84 <= fuel s /\ fuel s <= 100)%Q
       /\ status s <> MISSION_FAILED
       /\ status s <> CHECKS_IN_PROGRESS
       /\ strategy <> Some Stage2Strategy
       /\ (status s = IN_FLIGHT ->
           exists n : Z,
             0 <= n <= 15
             /\ (fuel s == 100 - inject_Z n
                 /\ altitude s == 10 * inject_Z n
                 /\ speed s == 1000 * inject_Z n)%Q)
       /\ (status s = ORBIT_ACHIEVED ->
           (fuel s == 84 /\ altitude s == 160 /\ speed s == 16000)%Q).
Proof.
  destruct (simulator_new_eq t0) as (this & t1 & E & Hr & _).
  exists this, t1. split; [exact E|].
  assert (nominal (rocket (world (machine (run_inputs this inputs t1))))) as Hn.
  { apply run_inputs_nominal. rewrite Hr. left. by split. }
  revert Hn. generalize (rocket (world (machine (run_inputs this inputs t1)))).
  intros [s o obs]; unfold nominal; cbn [state currentStageStrategy].
  intros [(E1 & ->)|[(E1 & ->)|[(k & Hk & Hst & Hfl & -> & Hf & Ha & Hv)|
                               (Hst & Ho & -> & Hf & Ha & Hv)]]].
  - rewrite E1. cbn. repeat split; try done; try lia; try discriminate.
  - rewrite E1. cbn. repeat split; try done; try lia; try discriminate.
  - assert (0 <= inject_Z k)%Q as Hq0
      by (change 0%Q with (inject_Z 0); rewrite <- Zle_Qle; lia).
    assert (inject_Z k <= 15)%Q as Hq15
      by (change 15%Q with (inject_Z 15); rewrite <- Zle_Qle; lia).
    rewrite Hst, Hfl. repeat split; try done; try lia; try lra; try discriminate.
    intros _. by exists k.
  - rewrite Hst, Ho. repeat split; try done; try lia; try lra; try discriminate.
Qed.

(* ===================================================================== *)
(** ** index.ts: lines that run nothing *)
(* ===================================================================== *)

(** The terminal with some entries more in the log and nothing else
    changed. *)
Definition logged (entries : Logger) (t : Terminal) : Terminal :=
  mkTerminal
    (mkMachine (with_logger (fun h => h ++ entries) (world (machine t))) (arrays (machine t)))
    (console t).

(** The terminal with some lines more on the console and nothing else
    changed. *)
Definition printed (lines : list string) (t : Terminal) : Terminal :=
  mkTerminal (machine t) (console t ++ lines).

Lemma startsWith_fast_forward s :
  String_startsWith s "fast_forward" = true ->
  s <> "start_checks"%string /\ s <> "launch"%string
  /\ s <> "status"%string /\ s <> "help"%string.
Proof. intros H. repeat split; intros ->; discriminate H. Qed.

(** X12.  A line that is no command, or a fast forward that is badly
    formed, changes nothing but the log, which gets one error.  When the
    lowered, trimmed line is none of the five commands, or starts with
    [fast_forward] and does not split at blanks into two pieces, the
    error is [Invalid command: ] followed by the line as it was typed;
    when the second piece parses to [NaN] or to a number that is not
    positive, it is that the value must be a positive number. *)
Theorem rejected_input
    (js : JsBuiltins) (this : RocketLaunchSimulator) (input : string) (t : Terminal) :
  let line := String_toLowerCase (String_trim input) in
  (line <> "start_checks"%string -> line <> "launch"%string ->
   line <> "status"%string -> line <> "help"%string ->
   String_startsWith line "fast_forward" = false ->
   RocketLaunchSimulator.processInput this input t
   = (Ok tt, logged [(ERROR, "Invalid command: " +:+ input)] t))
  /\ (String_startsWith line "fast_forward" = true ->
      (forall p a, String_split line " "%char <> [p; a]) ->
      RocketLaunchSimulator.processInput this input t
      = (Ok tt, logged [(ERROR, "Invalid command: " +:+ input)] t))
  /\ (String_startsWith line "fast_forward" = true ->
      forall p a,
        String_split line " "%char = [p; a] ->
        parseInt a 10 = None \/ (exists n, parseInt a 10 = Some n /\ n <= 0) ->
        RocketLaunchSimulator.processInput this input t
        = (Ok tt, logged [(ERROR, "Fast forward value must be a positive number")] t)).
Proof.
  intros line. unfold RocketLaunchSimulator.processInput, try_catch. fold line.
  split; [|split].
  - intros H1 H2 H3 H4 H5.
    rewrite !bool_decide_false by done. rewrite H5. reflexivity.
  - intros H5 Hsplit.
    destruct (startsWith_fast_forward line H5) as (H1 & H2 & _).
    rewrite !bool_decide_false by done. rewrite H5.
    destruct (String_split line " ") as [|p [|a [|b parts]]] eqn:E; try reflexivity.
    by destruct (Hsplit p a).
  - intros H5 p a Hsplit Hparse.
    destruct (startsWith_fast_forward line H5) as (H1 & H2 & _).
    rewrite !bool_decide_false by done. rewrite H5, Hsplit.
    destruct Hparse as [-> |(n & -> & Hn)]; [reflexivity|].
    apply Z.leb_le in Hn. rewrite Hn. reflexivity.
Qed.

Lemma rejected_input_witness :
  RocketLaunchSimulator.processInput sample_simulator "Fly me to the moon" terminal_flying
  = (Ok tt, logged [(ERROR, "Invalid command: Fly me to the moon")] terminal_flying)
  /\ RocketLaunchSimulator.processInput sample_simulator "fast_forward  5" terminal_flying
     = (Ok tt, logged [(ERROR, "Invalid command: fast_forward  5")] terminal_flying)
  /\ RocketLaunchSimulator.processInput sample_simulator "fast_forward -3" terminal_flying
     = (Ok tt, logged [(ERROR, "Fast forward value must be a positive number")]
                 terminal_flying)
  /\ RocketLaunchSimulator.processInput sample_simulator "fast_forward soon" terminal_flying
     = (Ok tt, logged [(ERROR, "Fast forward value must be a positive number")]
                 terminal_flying).
Proof.
  split; [|split; [|split]].
  - apply (proj1 (rejected_input sample_builtins sample_simulator "Fly me to the moon"
                    terminal_flying)); (discriminate || reflexivity).
  - apply (proj1 (proj2 (rejected_input sample_builtins sample_simulator "fast_forward  5"
                           terminal_flying))); [reflexivity|].
    intros p a. vm_compute. discriminate.
  - apply (proj2 (proj2 (rejected_input sample_builtins sample_simulator "fast_forward -3"
                           terminal_flying)) eq_refl "fast_forward" "-3")%string;
      [reflexivity|].
    right. exists (-3). split; [reflexivity|lia].
  - apply (proj2 (proj2 (rejected_input sample_builtins sample_simulator "fast_forward soon"
                           terminal_flying)) eq_refl "fast_forward" "soon")%string;
      [reflexivity|].
    left. reflexivity.
Defined.

(** X13.  [status] and [help] only print.  When the lowered, trimmed line
    is [status] the machine is left as it is and seven lines are printed,
    which show the status, the stage, and fuel, altitude and speed to one
    decimal; when it is [help], eight fixed lines are printed. *)
Theorem display_commands
    (js : JsBuiltins) (this : RocketLaunchSimulator) (input : string) (t : Terminal) :
  let line := String_toLowerCase (String_trim input) in
  let s := state (rocket (world (machine t))) in
  (line = "status"%string ->
   RocketLaunchSimulator.processInput this input t
   = (Ok tt,
      printed [ LF +:+ "=== MISSION STATUS ===";
                "Status: " +:+ MissionStatus_value (status s);
                "Stage: " +:+ Number_toString (stage s);
                "Fuel: " +:+ toFixed1 (fuel s) +:+ "%";
                "Altitude: " +:+ toFixed1 (altitude s) +:+ " km";
                "Speed: " +:+ toFixed1 (speed s) +:+ " km/h";
                "=====================" +:+ LF ] t))
  /\ (line = "help"%string ->
      RocketLaunchSimulator.processInput this input t
      = (Ok tt,
         printed [ LF +:+ "=== AVAILABLE COMMANDS ===";
                   "start_checks    - Initiate pre-launch system checks";
                   "launch          - Launch the rocket (after checks)";
                   "fast_forward X  - Advance simulation by X seconds";
                   "status          - Display current mission status";
                   "help            - Show this help message";
                   "exit            - Exit the simulator";
                   "=========================" +:+ LF ]%string t)).
Proof.
  intros line s. unfold RocketLaunchSimulator.processInput, try_catch. fold line.
  split; intros ->.
  - rewrite !bool_decide_false by discriminate.
    change (String_startsWith "status" "fast_forward") with false.
    rewrite bool_decide_true by reflexivity.
    unfold RocketLaunchSimulator.displayStatus, console_log, in_machine, in_world,
      RocketSystem.getState, printed.
    subst s. destruct t as [[w a] c].
    cbv [bind ret gets modify]. cbn [machine console world arrays fst snd].
    rewrite <- !app_assoc. reflexivity.
  - rewrite !bool_decide_false by discriminate.
    change (String_startsWith "help" "fast_forward") with false.
    rewrite bool_decide_true by reflexivity.
    unfold RocketLaunchSimulator.displayHelp, console_log, printed.
    destruct t as [[w a] c].
    cbv [bind ret gets modify]. cbn [machine console world arrays fst snd].
    rewrite <- !app_assoc. reflexivity.
Qed.

Lemma display_commands_witness :
  RocketLaunchSimulator.processInput sample_simulator " Status" terminal_in_orbit
  = (Ok tt,
     printed [ LF +:+ "=== MISSION STATUS ==="; "Status: Orbit Achieved"; "Stage: 1";
               "Fuel: 84.0%"; "Altitude: 160.0 km"; "Speed: 16000.0 km/h";
               "=====================" +:+ LF ]%string terminal_in_orbit).
Proof.
  rewrite (proj1 (display_commands sample_builtins sample_simulator " Status"
                    terminal_in_orbit) eq_refl).
  rewrite terminal_in_orbit_state. reflexivity.
Defined.

(** A refused command as it reaches the log. *)
Lemma refused_eq this c t :
  canExecute c (world (machine t)) = (Ok false, world (machine t)) ->
  (let (r, t') := in_machine (CommandInvoker.executeCommand (commandInvoker this) c) t in
   match r with
   | Ok a => (Ok a, t')
   | Throw e =>
       (if instanceof_SimulatorException e then
          in_machine (in_world (error (message e)))
        else
          in_machine (in_world (error "An unexpected error occurred"))) t'
   end)
  = (Ok tt, logged [(ERROR, "Cannot execute command: " +:+ getDescription c);
                    (ERROR, "Cannot execute command: " +:+ getDescription c)] t).
Proof.
  intros Hc.
  unfold in_machine, CommandInvoker.executeCommand, try_catch, bind, in_world, throw, error,
    log, modify, logged.
  rewrite Hc. cbn [negb instanceof_SimulatorException message fst snd world arrays machine
                   console with_logger logger rocket random drawn].
  unfold with_logger. cbn [logger rocket random drawn].
  rewrite <- app_assoc. reflexivity.
Qed.

(** X14.  A command the guard refuses is reported twice.  When the line
    asks for the checks outside PRE_LAUNCH, for the launch outside
    READY_TO_LAUNCH, or for a fast forward of a positive number of seconds
    outside IN_FLIGHT, nothing changes but the log, which gets the same
    error naming the command two times: once from the invoker and once
    from [processInput]. *)
Theorem refused_command_logged_twice
    (js : JsBuiltins) (this : RocketLaunchSimulator) (input : string) (t : Terminal) :
  let line := String_toLowerCase (String_trim input) in
  let s := state (rocket (world (machine t))) in
  let refused (description : string) :=
    (Ok tt, logged [(ERROR, "Cannot execute command: " +:+ description);
                    (ERROR, "Cannot execute command: " +:+ description)] t) in
  (line = "start_checks"%string -> status s <> PRE_LAUNCH ->
   RocketLaunchSimulator.processInput this input t
   = refused "Start pre-launch system checks")
  /\ (line = "launch"%string -> status s <> READY_TO_LAUNCH ->
      RocketLaunchSimulator.processInput this input t = refused "Launch the rocket")
  /\ (String_startsWith line "fast_forward" = true ->
      forall p a n,
        String_split line " "%char = [p; a] ->
        parseInt a 10 = Some n -> 0 < n ->
        status s <> IN_FLIGHT ->
        RocketLaunchSimulator.processInput this input t
        = refused ("Fast forward " +:+ Number_toString n +:+ " seconds")).
Proof.
  intros line s refused. subst refused. cbv beta.
  unfold RocketLaunchSimulator.processInput, try_catch. fold line.
  split; [|split].
  - intros -> Hs. rewrite bool_decide_true by reflexivity.
    apply (refused_eq this StartChecksCommand).
    unfold canExecute, StartChecksCommand, RocketSystem.getState, bind, gets, ret, clone.
    cbn [status]. by rewrite bool_decide_false.
  - intros -> Hs. rewrite bool_decide_false by discriminate.
    rewrite bool_decide_true by reflexivity.
    apply (refused_eq this LaunchCommand).
    unfold canExecute, LaunchCommand, RocketSystem.getState, bind, gets, ret, clone.
    cbn [status]. by rewrite bool_decide_false.
  - intros H5 p a n Hsplit Hparse Hn Hs.
    destruct (startsWith_fast_forward line H5) as (H1 & H2 & _).
    rewrite !bool_decide_false by done. rewrite H5, Hsplit, Hparse.
    assert ((n <=? 0) = false) as -> by (apply Z.leb_gt; lia).
    apply (refused_eq this (FastForwardCommand n)).
    unfold canExecute, FastForwardCommand, RocketSystem.getState, bind, gets, ret, clone.
    cbn [status]. by rewrite bool_decide_false.
Qed.

Lemma refused_command_logged_twice_witness :
  status (state (rocket (world (machine terminal_in_orbit)))) <> IN_FLIGHT
  /\ RocketLaunchSimulator.processInput sample_simulator "fast_forward 5" terminal_in_orbit
     = (Ok tt, logged [(ERROR, "Cannot execute command: Fast forward 5 seconds");
                       (ERROR, "Cannot execute command: Fast forward 5 seconds")]
                 terminal_in_orbit).
Proof.
  assert (status (state (rocket (world (machine terminal_in_orbit)))) <> IN_FLIGHT) as Hs
    by (rewrite terminal_in_orbit_state; discriminate).
  split; [exact Hs|].
  assert (0 < 5) as H5 by lia.
  exact (proj2 (proj2 (refused_command_logged_twice sample_builtins sample_simulator
                         "fast_forward 5" terminal_in_orbit))
           eq_refl "fast_forward"%string "5"%string 5 eq_refl eq_refl H5 Hs).
Defined.

(* ===================================================================== *)
(** ** commands.ts: invokers do not share their histories *)
(* ===================================================================== *)

(** X15.  Every invoker has a history of its own.  [new CommandInvoker]
    gives an invoker with an empty history in an array that was not there
    before and leaves all the arrays that were as they are; and whatever
    command is executed through an invoker, the history of another
    invoker is not changed. *)
Theorem invokers_have_their_own_history
    (s : Machine) (other : CommandInvoker) (l : list ICommand) (c : ICommand) :
  arrays s !! commandHistory other = Some l ->
  exists this s1,
    CommandInvoker.new s = (Ok this, s1)
    /\ commandHistory this <> commandHistory other
    /\ arrays s1 !! commandHistory this = Some []
    /\ arrays s1 !! commandHistory other = Some l
    /\ world s1 = world s
    /\ arrays (snd (CommandInvoker.executeCommand this c s1)) !! commandHistory other
       = Some l
    /\ (arrays (snd (CommandInvoker.executeCommand this c s1)) !! commandHistory this
        = Some []
        \/ arrays (snd (CommandInvoker.executeCommand this c s1)) !! commandHistory this
           = Some [c]).
Proof.
  intros Hl.
  assert (fresh (dom (arrays s)) <> commandHistory other) as Hfresh.
  { intros Heq. pose proof (is_fresh (dom (arrays s))) as Hf.
    rewrite Heq in Hf. apply Hf, elem_of_dom. by exists l. }
  eexists (mkCommandInvoker (fresh (dom (arrays s)))), _.
  split; [reflexivity|]. cbn [commandHistory arrays world].
  split; [exact Hfresh|]. split; [apply lookup_insert_eq|].
  split; [by rewrite lookup_insert_ne|]. split; [done|].
  set (this := mkCommandInvoker (fresh (dom (arrays s)))).
  set (s1 := mkMachine (world s) (<[fresh (dom (arrays s)) := []]> (arrays s))).
  assert (arrays s1 !! commandHistory this = Some []) as Hthis by apply lookup_insert_eq.
  destruct (executeCommand_eq this c s1 [] Hthis) as (Hfalse & Htrue & Hthrow & Hguard).
  destruct (canExecute c (world s1)) as [[[]|e] w1] eqn:Hc.
  - destruct (execute c (snd (info ("Executing: " +:+ getDescription c) w1)))
      as [[[]|e] w2] eqn:He.
    + rewrite (Htrue _ _ eq_refl He). cbn [snd arrays].
      split; [|right; apply lookup_insert_eq].
      rewrite lookup_insert_ne by exact Hfresh. subst s1. cbn [arrays].
      by rewrite lookup_insert_ne.
    + destruct (Hthrow _ _ _ eq_refl He) as (_ & -> & _).
      split; [|by left]. subst s1. cbn [arrays]. by rewrite lookup_insert_ne.
  - destruct (Hfalse _ eq_refl) as (_ & -> & _).
    split; [|by left]. subst s1. cbn [arrays]. by rewrite lookup_insert_ne.
  - destruct (Hguard _ _ eq_refl) as (_ & -> & _).
    split; [|by left]. subst s1. cbn [arrays]. by rewrite lookup_insert_ne.
Qed.

Lemma invokers_have_their_own_history_witness :
  arrays machine_start !! commandHistory (mkCommandInvoker 1) = Some []
  /\ exists this s1,
       CommandInvoker.new machine_start = (Ok this, s1)
       /\ commandHistory this <> 1%positive
       /\ arrays (snd (CommandInvoker.executeCommand this StartChecksCommand s1)) !! 1%positive
          = Some [].
Proof.
  assert (arrays machine_start !! commandHistory (mkCommandInvoker 1) = Some []) as Hl
    by reflexivity.
  split; [exact Hl|].
  destruct (invokers_have_their_own_history machine_start (mkCommandInvoker 1) []
              StartChecksCommand Hl) as (this & s1 & E & Hne & _ & _ & _ & Ho & _).
  exists this, s1. exact (conj E (conj Hne Ho)).
Defined.

(* ===================================================================== *)
(** ** rocketSystem.ts and the display: what a flight logs *)
(* ===================================================================== *)

(** The line [ConsoleDisplay] logs for a state in flight. *)
Definition display_line (s : RocketState) : string :=
  "Stage: " +:+ Number_toString (stage s)
    +:+ ", Fuel: " +:+ toFixed1 (fuel s) +:+ "%, "
    +:+ "Altitude: " +:+ toFixed1 (altitude s) +:+ " km, "
    +:+ "Speed: " +:+ toFixed1 (speed s) +:+ " km/h".

Lemma ConsoleDisplay_eq s h :
  onStateUpdate ConsoleDisplay s h
  = (Ok tt, if bool_decide (status s = IN_FLIGHT) then h ++ [(INFO, display_line s)] else h).
Proof. unfold ConsoleDisplay; cbn. by case_bool_decide. Qed.

Lemma notify_display w :
  observers (rocket w) = [ConsoleDisplay] ->
  RocketSystem.notifyObservers w
  = (Ok tt,
     with_logger (fun h =>
       if bool_decide (status (state (rocket w)) = IN_FLIGHT)
       then h ++ [(INFO, display_line (state (rocket w)))] else h) w).
Proof.
  intros Hobs. unfold RocketSystem.notifyObservers, bind, gets. rewrite Hobs.
  cbn [forEach]. unfold bind, on_logger. rewrite ConsoleDisplay_eq. reflexivity.
Qed.

(** X16.  The display shows every second of a flight but the last.  With
    the display as the only observer, as the simulator registers it, a
    step of a rocket in flight whose counter and strategy agree either
    goes on, and the last entry of the log is then the display line of the
    state reached, or ends the flight, and then the only entry it adds is
    the orbit message or the failure message: the state in which the
    flight ends is not displayed. *)
Theorem display_follows_flight (w : World) :
  observers (rocket w) = [ConsoleDisplay] ->
  status (state (rocket w)) = IN_FLIGHT ->
  staged (rocket w) ->
  currentStageStrategy (rocket w) <> None ->
  let w' := snd (RocketSystem.updateFlightParameters w) in
  (fst (RocketSystem.updateFlightParameters w) = Ok true
   /\ status (state (rocket w')) = IN_FLIGHT
   /\ last (logger w') = Some (INFO, display_line (state (rocket w'))))
  \/ (fst (RocketSystem.updateFlightParameters w) = Ok false
      /\ status (state (rocket w')) = ORBIT_ACHIEVED
      /\ logger w' = logger w ++ [(INFO, "🎉 Orbit achieved! Mission Successful.")])
  \/ (fst (RocketSystem.updateFlightParameters w) = Ok false
      /\ status (state (rocket w')) = MISSION_FAILED
      /\ logger w'
         = logger w ++ [(ERROR, "❌ Mission Failed due to Insufficient fuel.")]).
Proof.
  intros Hobs Hfl Hst Hs w'. subst w'.
  destruct w as [[s o obs] h rnd d]. cbn [rocket observers state currentStageStrategy] in *.
  subst obs. destruct o as [strategy|]; [clear Hs|done].
  unfold RocketSystem.updateFlightParameters, RocketSystem.missionFailed,
    RocketSystem.achieveOrbit, RocketSystem.separateStage, RocketSystem.strategy_of,
    error, info.
  run.
  destruct (Qle_bool (fuel s - getFuelConsumptionRate strategy) 0) eqn:Hf; run.
  { right; right. rewrite notify_display by reflexivity.
    cbn [rocket state status set_status with_logger logger fst snd].
    rewrite bool_decide_false by discriminate. by repeat split. }
  destruct (Qge_bool (altitude s + getAltitudeIncrement strategy) ORBIT_ALTITUDE
            && Qge_bool (fuel s - getFuelConsumptionRate strategy) MIN_FUEL_FOR_ORBIT)
    eqn:Ho; run.
  { right; left. rewrite notify_display by reflexivity.
    cbn [rocket state status set_status with_logger logger fst snd].
    rewrite bool_decide_false by discriminate. by repeat split. }
  left.
  destruct (shouldSeparate strategy (fuel s - getFuelConsumptionRate strategy)) eqn:Hsep; run.
  - assert (strategy = Stage1Strategy /\ stage s = 1) as [-> Hstage].
    { unfold staged in Hst. cbn [state currentStageStrategy] in Hst.
      destruct Hst as [(_ & ?)|[(? & ?)|(_ & ?)]]; simplify_eq;
        first [done|discriminate Hsep]. }
    rewrite Hstage. change (StageFactory.createStage (1 + 1)) with (Ok Stage2Strategy). run.
    rewrite notify_display by reflexivity.
    cbn [rocket state status set_status with_logger logger fst snd].
    rewrite bool_decide_true by exact Hfl. split; [done|]. split; [done|].
    apply last_snoc.
  - rewrite notify_display by reflexivity.
    cbn [rocket state status set_status with_logger logger fst snd].
    rewrite bool_decide_true by exact Hfl. split; [done|]. split; [done|].
    apply last_snoc.
Qed.

Lemma display_follows_flight_witness :
  (observers (rocket world_before_separation) = [ConsoleDisplay]
   /\ status (state (rocket world_before_separation)) = IN_FLIGHT
   /\ staged (rocket world_before_separation)
   /\ currentStageStrategy (rocket world_before_separation) <> None)
  /\ last (logger (snd (RocketSystem.updateFlightParameters world_before_separation)))
     = Some (INFO, "Stage: 2, Fuel: 4.0%, Altitude: 960.0 km, Speed: 96000.0 km/h").
Proof.
  assert (observers (rocket world_before_separation) = [ConsoleDisplay]) as Hobs
    by (vm_compute; reflexivity).
  destruct world_before_separation_state as [Hstate Hs].
  assert (status (state (rocket world_before_separation)) = IN_FLIGHT) as Hfl
    by (rewrite Hstate; reflexivity).
  assert (staged (rocket world_before_separation)) as Hst.
  { right; left. split; [by rewrite Hstate|exact Hs]. }
  assert (currentStageStrategy (rocket world_before_separation) <> None) as Hsome
    by (rewrite Hs; discriminate).
  split; [exact (conj Hobs (conj Hfl (conj Hst Hsome)))|].
  destruct (display_follows_flight world_before_separation Hobs Hfl Hst Hsome)
    as [(_ & _ & H)|[(H & _)|(H & _)]].
  - rewrite H. vm_compute. reflexivity.
  - exfalso. revert H. vm_compute. discriminate.
  - exfalso. revert H. vm_compute. discriminate.
Defined.

(* ===================================================================== *)
(** ** rocketSystem.ts: an observer that throws *)
(* ===================================================================== *)

(** The observers in [obs] called in turn with state [s], on the logger
    alone. *)
Definition notified (obs : list IRocketObserver) (s : RocketState) : M Logger unit :=
  forEach (fun observer => onStateUpdate observer s) obs.

Lemma notify_notified obs s w :
  forEach (fun observer => on_logger (onStateUpdate observer s)) obs w
  = (fst (notified obs s (logger w)),
     mkWorld (rocket w) (snd (notified obs s (logger w))) (random w) (drawn w)).
Proof.
  revert w; induction obs as [|o obs IH]; intros w; [by destruct w|].
  unfold notified in *. cbn [forEach]. unfold bind, on_logger.
  destruct (onStateUpdate o s (logger w)) as [[[]|e] h] eqn:E; [|done].
  rewrite IH. reflexivity.
Qed.

Lemma notified_first_error before o rest s h e h' :
  Forall quiet before ->
  onStateUpdate o s (snd (notified before s h)) = (Throw e, h') ->
  notified (before ++ o :: rest) s h = (Throw e, h').
Proof.
  unfold notified. revert h; induction before as [|b before IH]; intros h Hq Ho.
  - cbn [app forEach] in *. unfold bind, ret in *. cbn [snd] in Ho. by rewrite Ho.
  - cbn [app forEach] in *. unfold bind at 1. unfold bind at 1 in Ho.
    inversion Hq as [|? ? Hb Hq']; subst.
    specialize (Hb s h). destruct (onStateUpdate b s h) as [r hb]. cbn [fst] in Hb.
    subst r. by apply IH.
Qed.

(** X17.  An observer that throws during [launch] does not undo the
    launch.  When the rocket is ready and the first observer to throw is
    [o], with error [e], [launch] throws [e], but the rocket is left
    launched: stage counter 1, status IN_FLIGHT, Stage 1 strategy.  The
    observers registered after [o] are not notified: the log is the one
    [o] left, followed by the one entry [handleError] adds, whatever the
    later observers are. *)
Theorem observer_error_in_launch (w : World) (before rest : list IRocketObserver)
    (o : IRocketObserver) (e : Exn) (h' : Logger) :
  status (state (rocket w)) = READY_TO_LAUNCH ->
  observers (rocket w) = before ++ o :: rest ->
  Forall quiet before ->
  onStateUpdate o (state (launched (rocket w)))
    (snd (notified before (state (launched (rocket w)))
            (logger w ++ [(INFO, "🚀 Launching rocket!")])))
  = (Throw e, h') ->
  RocketSystem.launch w
  = (Throw e,
     mkWorld (launched (rocket w))
       (h' ++ [(ERROR,
                if instanceof_SimulatorException e then
                  "Launch failed: " +:+ message e
                else if instanceof_Error e then
                  "Launch failed: Unexpected error - " +:+ message e
                else "Launch failed: Unknown error occurred")])
       (random w) (drawn w)).
Proof.
  intros Hst Hobs Hq Ho.
  destruct w as [[s c obs] h rnd d]. cbn [rocket observers state logger random drawn] in *.
  subst obs. unfold launched in *. cbn [state currentStageStrategy observers] in *.
  unfold RocketSystem.launch, RocketSystem.notifyObservers, info,
    StageFactory.createStage.
  unfold try_catch. run. rewrite bool_decide_false by (intros H; by apply H).
  run. rewrite notify_notified. cbn [logger rocket random drawn].
  rewrite (notified_first_error before o rest _ _ e h' Hq Ho). cbn [fst snd].
  unfold RocketSystem.handleError, error.
  destruct (instanceof_SimulatorException e), (instanceof_Error e); run; reflexivity.
Qed.

(** An observer that throws whenever it is notified. *)
Definition failing_observer : IRocketObserver :=
  mkObserver (fun _ h => (Throw (OtherError "display lost"), h)).

Definition world_failing_observer : World :=
  snd (RocketSystem.performPreLaunchChecks
         (snd (RocketSystem.addObserver ConsoleDisplay
                 (snd (RocketSystem.addObserver failing_observer
                         (snd (RocketSystem.addObserver ConsoleDisplay
                                 (RocketSystem.new [] (fun _ => 1 # 2)%Q 0)))))))).

Lemma observer_error_in_launch_witness :
  fst (RocketSystem.launch world_failing_observer) = Throw (OtherError "display lost")
  /\ status (state (rocket (snd (RocketSystem.launch world_failing_observer)))) = IN_FLIGHT
  /\ last (logger (snd (RocketSystem.launch world_failing_observer)))
     = Some (ERROR, "Launch failed: Unexpected error - display lost").
Proof.
  assert (status (state (rocket world_failing_observer)) = READY_TO_LAUNCH) as Hst
    by (vm_compute; reflexivity).
  assert (observers (rocket world_failing_observer)
          = [ConsoleDisplay] ++ failing_observer :: [ConsoleDisplay]) as Hobs
    by (vm_compute; reflexivity).
  assert (Forall quiet [ConsoleDisplay]) as Hq.
  { constructor; [|constructor]. intros s h. by rewrite ConsoleDisplay_eq. }
  rewrite (observer_error_in_launch world_failing_observer [ConsoleDisplay]
             [ConsoleDisplay] failing_observer (OtherError "display lost") _
             Hst Hobs Hq eq_refl).
  cbn [fst snd rocket state logger launched status set_status].
  split; [reflexivity|]. split; [reflexivity|]. apply last_snoc.
Defined.

(* ===================================================================== *)
(** ** rocketSystem.ts: edges of [advanceTime] *)
(* ===================================================================== *)

(** X18.  In flight, [advanceTime] with zero or a negative number of
    seconds returns normally and changes nothing: no step is run and
    nothing is logged.  (The command layer refuses such a number before it
    gets here; the method itself does not.) *)
Theorem advanceTime_nonpositive (seconds : Z) (w : World) :
  status (state (rocket w)) = IN_FLIGHT ->
  seconds <= 0 ->
  RocketSystem.advanceTime seconds w = (Ok tt, w).
Proof.
  intros Hfl Hs. unfold RocketSystem.advanceTime, try_catch. run.
  rewrite bool_decide_false by (intros H; by apply H).
  replace (Z.to_nat seconds) with 0%nat by lia. reflexivity.
Qed.

Lemma advanceTime_nonpositive_witness :
  status (state (rocket world_before_separation)) = IN_FLIGHT
  /\ RocketSystem.advanceTime (-3) world_before_separation
     = (Ok tt, world_before_separation).
Proof.
  assert (status (state (rocket world_before_separation)) = IN_FLIGHT) as Hfl
    by (rewrite (proj1 world_before_separation_state); reflexivity).
  split; [exact Hfl|].
  apply (advanceTime_nonpositive (-3) world_before_separation Hfl). lia.
Defined.

(** X19.  A rocket in flight always has a stage strategy, in every world a
    client can reach from a fresh rocket system: the branch of
    [updateFlightParameters] for a missing strategy is never taken by
    [advanceTime], and the strategy is the one of the stage counter. *)
Theorem strategy_present_in_flight (h : Logger) (rnd : nat -> Q) (n : nat) (ops : list Op) :
  let w := run_ops ops (RocketSystem.new h rnd n) in
  status (state (rocket w)) = IN_FLIGHT ->
  exists strategy,
    currentStageStrategy (rocket w) = Some strategy
    /\ StageFactory.createStage (stage (state (rocket w))) = Ok strategy.
Proof.
  intros w Hfl.
  destruct (run_ops_settled ops _ (new_settled h rnd n)) as (H1 & _).
  destruct (run_ops_sound ops _ (new_sound h rnd n)) as (Hst & _).
  fold w in H1, Hst. specialize (H1 Hfl).
  destruct Hst as [(_ & H)|[(Hs & H)|(Hs & H)]]; [done| |].
  - exists Stage1Strategy. by rewrite Hs.
  - exists Stage2Strategy. by rewrite Hs.
Qed.

Lemma strategy_present_in_flight_witness :
  status (state (rocket world_before_separation)) = IN_FLIGHT
  /\ exists strategy,
       currentStageStrategy (rocket world_before_separation) = Some strategy
       /\ StageFactory.createStage (stage (state (rocket world_before_separation)))
          = Ok strategy.
Proof.
  assert (status (state (rocket world_before_separation)) = IN_FLIGHT) as Hfl
    by (rewrite (proj1 world_before_separation_state); reflexivity).
  split; [exact Hfl|].
  pose proof (strategy_present_in_flight [] (fun _ => 1 # 2)%Q 0
                trace_before_separation) as T.
  cbv zeta in T. rewrite <- world_before_separation_trace in T.
  exact (T Hfl).
Defined.
